(** * Store coordination server: registry, catalog aggregation, order relay

    A shallow embedding of the request handlers of the three server files
    of the repository,

      - [src/main-server.js]        (variant [MainServer]),
      - [src/unnamed/part_000]      (variant [Part000]),
      - [src/unnamed/part_001]      (variant [Part001]),

    and the properties of their store registry, catalog aggregator and
    order relay.  The three files are near copies of one another; a handler
    is embedded once and takes the variant as an argument wherever the
    files differ.

    Conventions.  A JSON document is a [JVal]; the records of the three
    collections are JSON objects, kept as finite maps from field names to
    values, so [r !! "storeId"] is the JavaScript [r.storeId] and [None] is
    [undefined].  The instants of [new Date()] are integers, milliseconds
    since the epoch.  The outbound [fetch] calls are answered by an oracle,
    and every handler returns its HTTP response, the contents of the three
    data files afterwards and the outbound requests it issued.

    Outside the embedding: a write of a data file that fails (the handlers
    answer 500 then), two requests interleaved at their [await]s, and the
    order in which a file registers its routes.  A handler is a function of
    the request and of the files as it finds them. *)

From Stdlib Require Import ZArith QArith Qround Qabs String Ascii List Sorted Permutation Lia.
From stdpp Require Import gmap strings list fin_maps pretty.

Set Warnings "-register-all".
Open Scope string_scope.
Open Scope list_scope.

(** ** JSON values and the JavaScript operators used on them *)

(** Numbers are kept as rationals. *)
Inductive JVal :=
| JNull
| JBool (b : bool)
| JNum (q : Q)
| JStr (s : string)
| JArr (l : list JVal)
| JObj (m : gmap string JVal).

(** A record of a collection: a JSON object. *)
Abbreviation Obj := (gmap string JVal).

(** [!v] is [negb (truthy v)]: [undefined], [null], [false], [0] and the
    empty string are falsy, everything else (every array and object too)
    is truthy. *)
Definition truthy (v : option JVal) : bool :=
  match v with
  | None => false
  | Some JNull => false
  | Some (JBool b) => b
  | Some (JNum q) => negb (Qeq_bool q 0%Q)
  | Some (JStr s) => negb (String.eqb s "")
  | Some (JArr _) => true
  | Some (JObj _) => true
  end.

(** [a === b] on values read from parsed JSON: same type and same
    primitive value; two arrays or objects are never the same reference,
    since each comes from its own [JSON.parse]. *)
Definition strict_eq (a b : option JVal) : bool :=
  match a, b with
  | None, None => true
  | Some JNull, Some JNull => true
  | Some (JBool x), Some (JBool y) => Bool.eqb x y
  | Some (JNum x), Some (JNum y) => Qeq_bool x y
  | Some (JStr x), Some (JStr y) => String.eqb x y
  | _, _ => false
  end.

(** [a || b] *)
Definition js_or (a b : option JVal) : option JVal :=
  if truthy a then a else b.

(** [r.k = v].  A field that is assigned [undefined] reads back as
    [undefined] and is left out by [JSON.stringify], like an absent one. *)
Definition set_field (k : string) (v : option JVal) (r : Obj) : Obj :=
  match v with
  | Some x => <[k := x]> r
  | None => delete k r
  end.

(** [{ ...old, ...new }]: the fields of [new] win on a collision. *)
Definition spread (old new : Obj) : Obj := new ∪ old.

(** An object literal, with the fields whose value is [undefined] left out. *)
Fixpoint object_literal (fields : list (string * option JVal)) : Obj :=
  match fields with
  | [] => ∅
  | (k, v) :: rest => set_field k v (object_literal rest)
  end.

Definition jnat (n : nat) : JVal := JNum (inject_Z (Z.of_nat n)).

(** [xs.findIndex(p)], with [None] for [-1]. *)
Fixpoint findIndex {A : Type} (p : A -> bool) (xs : list A) : option nat :=
  match xs with
  | [] => None
  | x :: rest => if p x then Some O else option_map S (findIndex p rest)
  end.

(** ** Built-ins of the JavaScript runtime

    [Date.prototype.toISOString], [Date.parse] and the string conversion of
    arrays and objects belong to the runtime, not to the repository; the
    handlers are embedded over any implementation of them. *)

Class Builtins := {
  toISOString : Z -> string;
  Date_parse : string -> option Z;
  ToPrimitive : JVal -> string
}.

(** [TimeClip]: a number is a time value when it is at most 8.64e15 in
    absolute value, and is truncated towards zero. *)
Definition TimeClip (q : Q) : option Z :=
  if Qle_bool (Qabs q) (inject_Z 8640000000000000)
  then Some (if Qle_bool 0%Q q then Qfloor q else Qceiling q)
  else None.

(** The time value of [new Date(v)]; [None] is the invalid date, whose time
    value is [NaN]. *)
Definition Date_new `{Builtins} (v : option JVal) : option Z :=
  match v with
  | None => None
  | Some JNull => Some 0%Z
  | Some (JBool b) => Some (if b then 1%Z else 0%Z)
  | Some (JNum q) => TimeClip q
  | Some (JStr s) => Date_parse s
  | Some x => Date_parse (ToPrimitive x)
  end.

(** [new Date().toISOString()] at the instant [now]. *)
Definition iso_now `{Builtins} (now : Z) : option JVal := Some (JStr (toISOString now)).

(** The clock of one request: [clk k] is the instant of the [k]-th
    [new Date()] or [Date.now()] of the handler. *)
Definition Clock := nat -> Z.

(** ** Persistent record store *)

(** The three data files.  [None] is a file that is missing or does not
    hold JSON. *)
Record State := mkState {
  stores_file : option (list Obj);
  orders_file : option (list Obj);
  products_file : option (list Obj)
}.

(** [readJSON(file)]: the parsed array, or [[]] when the read or the parse
    throws. *)
Definition readJSON (file : option (list Obj)) : list Obj :=
  match file with
  | Some data => data
  | None => []
  end.

(** [writeJSON(STORES_FILE, data)], and the same for the two other files. *)
Definition write_stores (data : list Obj) (st : State) : State :=
  mkState (Some data) (orders_file st) (products_file st).

Definition write_orders (data : list Obj) (st : State) : State :=
  mkState (stores_file st) (Some data) (products_file st).

Definition write_products (data : list Obj) (st : State) : State :=
  mkState (stores_file st) (orders_file st) (Some data).

(** ** Outbound requests *)

(** The URL of a request is the template literal [`${base}${path}`]; the
    interpolated value is kept as it is. *)
Inductive Request :=
| HttpGet (base : option JVal) (path : string)
| HttpPost (base : option JVal) (path : string) (payload : Obj).

(** What [await fetch(...)] followed by [await response.json()] gives:
    [fetch] rejects with a message, or resolves to a response with its [ok]
    flag and a body.  The body is [inr] of an array of records, or [inl] of
    the message of the error when [json()] rejects or the spread of the
    value throws because the value is not iterable.  A body that can be
    spread without being an array of records (a JSON string, an array that
    holds [null] or scalars) has no place here, as the catalog is a list of
    records: the handlers append such a body as they do an array, and the
    embedding says nothing of it. *)
Inductive FetchResult :=
| FetchThrows (message : string)
| FetchResponse (ok : bool) (json : string + list Obj).

(** The remote stores: the answer to the [k]-th request of a handler. *)
Definition Net := nat -> Request -> FetchResult.

(** ** Responses *)

Record Response := mkResponse {
  code : nat;
  body : JVal
}.

(** [res.json(b)] and [res.status(c).json(b)] *)
Definition res_json (b : JVal) : Response := mkResponse 200 b.

Definition res_status (c : nat) (b : JVal) : Response := mkResponse c b.

(** [{ error: msg }] *)
Definition error_body (msg : string) : JVal := JObj {[ "error" := JStr msg ]}.

(** What a handler leaves behind. *)
Record Outcome := mkOutcome {
  response : Response;
  final : State;
  sent : list Request
}.

(** The server files. *)
Inductive Variant := MainServer | Part000 | Part001.

(** ** The request handlers *)

Section Handlers.
Context `{Builtins}.

(** [s => s.storeId === storeId], the test of every [find], [findIndex]
    and [filter] on store identity. *)
Definition has_storeId (storeId : option JVal) (s : Obj) : bool :=
  strict_eq (s !! "storeId") storeId.

(** *** Store registry *)

(** The guard of [POST /api/stores/register]: [true] when the request is
    answered with 400.  [part_001] has no guard. *)
Definition register_rejects (v : Variant) (storeInfo : Obj) : bool :=
  match v with
  | MainServer =>
      negb (truthy (storeInfo !! "storeId")) || negb (truthy (storeInfo !! "name"))
  | Part000 =>
      negb (truthy (storeInfo !! "storeId")) || negb (truthy (storeInfo !! "name"))
      || negb (truthy (storeInfo !! "url"))
  | Part001 => false
  end.

Definition register_error (v : Variant) : string :=
  match v with
  | Part000 => "Missing required fields: storeId, name, and url are required"
  | _ => "Missing required fields: storeId and name are required"
  end.

(** The assignments to [storeInfo] before the stores are read. *)
Definition register_stamp (v : Variant) (clk : Clock) (storeInfo : Obj) : Obj :=
  let s1 := set_field "lastSeen" (iso_now (clk 0%nat)) storeInfo in
  let s2 := set_field "status" (Some (JStr "online")) s1 in
  match v with
  | MainServer => set_field "registeredAt" (iso_now (clk 1%nat)) s2
  | Part000 =>
      set_field "registeredAt" (js_or (s2 !! "registeredAt") (iso_now (clk 1%nat))) s2
  | Part001 => s2
  end.

(** The update of the [stores] array: merge into the first record with the
    same [storeId], or push. *)
Definition register_stores (stores : list Obj) (storeInfo : Obj) : list Obj :=
  match findIndex (has_storeId (storeInfo !! "storeId")) stores with
  | Some existingIndex => alter (fun old => spread old storeInfo) existingIndex stores
  | None => stores ++ [storeInfo]
  end.

(** The connectivity test of [part_001], made after the stores are written:
    it only marks the [storeInfo] of the response. *)
Definition connectivity (r : FetchResult) : string :=
  match r with
  | FetchResponse true _ => "good"
  | FetchResponse false _ => "poor"
  | FetchThrows _ => "failed"
  end.

Definition register (v : Variant) (clk : Clock) (net : Net) (reqBody : Obj) (st : State)
  : Outcome :=
  if register_rejects v reqBody then
    mkOutcome (res_status 400 (error_body (register_error v))) st []
  else
    let storeInfo := register_stamp v clk reqBody in
    let stores := register_stores (readJSON (stores_file st)) storeInfo in
    let st' := write_stores stores st in
    match v with
    | MainServer =>
        mkOutcome
          (res_json (JObj (object_literal
             [("success", Some (JBool true));
              ("store", Some (JObj storeInfo));
              ("message", Some (JStr "Store registered successfully with Replit server"));
              ("totalStores", Some (jnat (length stores)))])))
          st' []
    | Part000 =>
        mkOutcome
          (res_json (JObj (object_literal
             [("success", Some (JBool true));
              ("store", Some (JObj storeInfo));
              ("message", Some (JStr "Store registered successfully with Replit server"));
              ("totalStores", Some (jnat (length stores)));
              ("server", Some (JStr "replit"))])))
          st' []
    | Part001 =>
        let probe := HttpGet (storeInfo !! "url") "/api/debug" in
        let storeInfo' :=
          set_field "connectivity" (Some (JStr (connectivity (net 0%nat probe)))) storeInfo in
        mkOutcome
          (res_json (JObj (object_literal
             [("success", Some (JBool true));
              ("store", Some (JObj storeInfo'));
              ("message", Some (JStr "Store registered successfully"))])))
          st' [probe]
    end.

(** The liveness threshold of [GET /api/stores], in minutes. *)
Definition liveness_threshold (v : Variant) : Q :=
  match v with
  | Part001 => 5%Q
  | _ => 10%Q
  end.

(** [(now - lastSeen) / (1000 * 60)] with [lastSeen = new Date(store.lastSeen)];
    [None] is [NaN].  The quotient is exact here and a double in the source;
    the division of doubles is monotone and gives 5 and 10 exactly at
    300000 and 600000 milliseconds, so the comparisons with the thresholds
    agree. *)
Definition minutesAgo (now : Z) (store : Obj) : option Q :=
  match Date_new (store !! "lastSeen") with
  | Some lastSeen => Some (inject_Z (now - lastSeen) / inject_Z (1000 * 60))%Q
  | None => None
  end.

(** [m < thr]; a comparison with [NaN] is [false]. *)
Definition js_lt (m : option Q) (thr : Q) : bool :=
  match m with
  | Some x => negb (Qle_bool thr x)
  | None => false
  end.

(** [Math.floor(m)] as it is serialised: [NaN] becomes [null].  The floor is
    that of the exact quotient; it is the floor of the double of the source
    as long as the gap [now - lastSeen] is at most 2^53 milliseconds in
    absolute value, which holds of every valid [lastSeen] at an instant of
    this era: the difference is then exact and the rounded quotient does not
    reach the next whole minute.  For a wider gap the double difference is
    rounded and the two floors can differ by one. *)
Definition Math_floor (m : option Q) : JVal :=
  match m with
  | Some x => JNum (inject_Z (Qfloor x))
  | None => JNull
  end.

(** The body of the [forEach] of [GET /api/stores]. *)
Definition refresh_status (v : Variant) (now : Z) (store : Obj) : Obj :=
  let m := minutesAgo now store in
  let store1 :=
    set_field "status"
      (Some (JStr (if js_lt m (liveness_threshold v) then "online" else "offline"))) store in
  match v with
  | Part000 => set_field "lastSeenMinutes" (Some (Math_floor m)) store1
  | _ => store1
  end.

Definition list_stores (v : Variant) (clk : Clock) (st : State) : Outcome :=
  let now := clk 0%nat in
  let stores := map (refresh_status v now) (readJSON (stores_file st)) in
  mkOutcome (res_json (JArr (map JObj stores))) (write_stores stores st) [].

(** The guard of [POST /api/stores/manual-add]. *)
Definition manual_add_rejects (v : Variant) (reqBody : Obj) : bool :=
  match v with
  | MainServer =>
      negb (truthy (reqBody !! "storeId")) || negb (truthy (reqBody !! "name"))
  | _ =>
      negb (truthy (reqBody !! "storeId")) || negb (truthy (reqBody !! "name"))
      || negb (truthy (reqBody !! "url"))
  end.

(** The record that [manual-add] builds from the four destructured fields. *)
Definition manual_add_record (v : Variant) (clk : Clock) (reqBody : Obj) : Obj :=
  let storeId := reqBody !! "storeId" in
  let name := reqBody !! "name" in
  let location := reqBody !! "location" in
  let url := reqBody !! "url" in
  object_literal
    ([("storeId", storeId);
      ("name", name);
      ("location", js_or location (Some (JStr "Unknown Location")));
      ("url", match v with
              | MainServer => js_or url (Some (JStr "http://localhost:3000"))
              | _ => url
              end);
      ("lastSeen", iso_now (clk 0%nat));
      ("status", Some (JStr "online"))]
     ++ match v with
        | Part000 => [("addedManually", Some (JBool true))]
        | _ => []
        end).

Definition manual_add_stores (storeId : option JVal) (stores : list Obj) (storeInfo : Obj)
  : list Obj :=
  match findIndex (has_storeId storeId) stores with
  | Some existingIndex => <[existingIndex := storeInfo]> stores
  | None => stores ++ [storeInfo]
  end.

Definition manual_add (v : Variant) (clk : Clock) (reqBody : Obj) (st : State) : Outcome :=
  if manual_add_rejects v reqBody then
    mkOutcome
      (res_status 400 (error_body (match v with
                                   | MainServer => "storeId and name are required"
                                   | _ => "storeId, name, and url are required"
                                   end)))
      st []
  else
    let storeInfo := manual_add_record v clk reqBody in
    let stores :=
      manual_add_stores (reqBody !! "storeId") (readJSON (stores_file st)) storeInfo in
    mkOutcome
      (res_json (JObj (object_literal
         [("success", Some (JBool true));
          ("message", Some (JStr (match v with
                                  | Part000 => "Store added manually to Replit server"
                                  | _ => "Store added manually"
                                  end)));
          ("store", Some (JObj storeInfo))])))
      (write_stores stores st) [].

(** *** Catalog aggregator *)

(** [stores.find(s => s.storeId === storeId)] *)
Definition find_store (storeId : option JVal) (stores : list Obj) : option Obj :=
  List.find (has_storeId storeId) stores.

(** [allProducts.filter(p => p.storeId !== storeId)] followed by the
    spread [[...otherStoreProducts, ...products]]. *)
Definition replace_products (storeId : option JVal) (allProducts products : list Obj)
  : list Obj :=
  let otherStoreProducts :=
    List.filter (fun p => negb (has_storeId storeId p)) allProducts in
  otherStoreProducts ++ products.

Definition sync_failure (message : string) : Response :=
  res_status 500 (error_body ("Failed to sync products: " ++ message)%string).

(** [POST /api/stores/:storeId/sync-products], the same in the three files.
    The route parameter is a string. *)
Definition sync_products (net : Net) (storeId : string) (st : State) : Outcome :=
  let stores := readJSON (stores_file st) in
  match find_store (Some (JStr storeId)) stores with
  | None => mkOutcome (res_status 404 (error_body "Store not found")) st []
  | Some store =>
      let req := HttpGet (store !! "url") "/api/products" in
      match net 0%nat req with
      | FetchThrows message => mkOutcome (sync_failure message) st [req]
      | FetchResponse false _ =>
          mkOutcome (sync_failure "Failed to fetch products from store") st [req]
      | FetchResponse true (inl message) => mkOutcome (sync_failure message) st [req]
      | FetchResponse true (inr products) =>
          let allProducts := readJSON (products_file st) in
          let updatedProducts := replace_products (Some (JStr storeId)) allProducts products in
          mkOutcome
            (res_json (JObj (object_literal
               [("success", Some (JBool true));
                ("productsCount", Some (jnat (length products)));
                ("store", store !! "name")])))
            (write_products updatedProducts st) [req]
      end
  end.

(** The running state of the loop of [POST /api/stores/sync-all]. *)
Record SyncAll := mkSyncAll {
  sa_state : State;
  totalProducts : nat;
  syncedStores : nat;
  sa_sent : list Request
}.

(** One iteration of [for (const store of onlineStores)], the [k]-th: a
    fetch that throws, a response that is not [ok] and a body that
    [json()] rejects all leave the counters and the catalog as they are. *)
Definition sync_all_step (net : Net) (k : nat) (store : Obj) (acc : SyncAll) : SyncAll :=
  let req := HttpGet (store !! "url") "/api/products" in
  match net k req with
  | FetchResponse true (inr products) =>
      let allProducts := readJSON (products_file (sa_state acc)) in
      let updatedProducts := replace_products (store !! "storeId") allProducts products in
      mkSyncAll (write_products updatedProducts (sa_state acc))
                (totalProducts acc + length products)
                (syncedStores acc + 1)
                (sa_sent acc ++ [req])
  | _ =>
      mkSyncAll (sa_state acc) (totalProducts acc) (syncedStores acc) (sa_sent acc ++ [req])
  end.

Fixpoint sync_all_loop (net : Net) (k : nat) (onlineStores : list Obj) (acc : SyncAll)
  : SyncAll :=
  match onlineStores with
  | [] => acc
  | store :: rest => sync_all_loop net (S k) rest (sync_all_step net k store acc)
  end.

(** [stores.filter(s => s.status === 'online')] *)
Definition onlineStores (stores : list Obj) : list Obj :=
  List.filter (fun s => strict_eq (s !! "status") (Some (JStr "online"))) stores.

(** The [message] of the response of [sync-all], a template literal over the
    two counters. *)
Definition sync_all_message (syncedStores totalProducts : nat) : string :=
  ("تم مزامنة " ++ pretty syncedStores ++ " متاجر بـ " ++ pretty totalProducts ++ " منتج")%string.

(** The body of the response of [sync-all]. *)
Definition sync_all_body (syncedStores totalProducts : nat) : JVal :=
  JObj (object_literal
    [("success", Some (JBool true));
     ("syncedStores", Some (jnat syncedStores));
     ("totalProducts", Some (jnat totalProducts));
     ("message", Some (JStr (sync_all_message syncedStores totalProducts)))]).

(** [POST /api/stores/sync-all], the same in [part_000] and [part_001];
    [main-server.js] has no such route. *)
Definition sync_all (net : Net) (st : State) : Outcome :=
  let stores := readJSON (stores_file st) in
  let acc := sync_all_loop net 0 (onlineStores stores) (mkSyncAll st 0 0 []) in
  mkOutcome (res_json (sync_all_body (syncedStores acc) (totalProducts acc)))
    (sa_state acc) (sa_sent acc).

(** *** Order relay *)

(** The guard of [POST /api/orders]. *)
Definition create_order_rejects (order : Obj) : bool :=
  negb (truthy (order !! "storeId")) || negb (truthy (order !! "items"))
  || negb (truthy (order !! "customer")).

(** The assignments to [order] before the stores are read;
    [`MAIN-ORD-${Date.now()}`] prints the instant in decimal. *)
Definition order_stamp (clk : Clock) (order : Obj) : Obj :=
  let o1 := set_field "orderId" (Some (JStr ("MAIN-ORD-" ++ pretty (clk 0%nat))%string)) order in
  let o2 := set_field "createdAt" (iso_now (clk 1%nat)) o1 in
  set_field "status" (Some (JStr "pending")) o2.

(** [POST /api/orders].  [part_001] also posts the order to the store; what
    comes back is logged and changes neither the response nor the files. *)
Definition create_order (v : Variant) (clk : Clock) (net : Net) (reqBody : Obj) (st : State)
  : Outcome :=
  if create_order_rejects reqBody then
    mkOutcome (res_status 400 (error_body "Missing required fields")) st []
  else
    let order := order_stamp clk reqBody in
    let stores := readJSON (stores_file st) in
    match find_store (order !! "storeId") stores with
    | None => mkOutcome (res_status 404 (error_body "Store not found")) st []
    | Some store =>
        let order' := set_field "storeName" (store !! "name") order in
        let orders := readJSON (orders_file st) ++ [order'] in
        mkOutcome
          (res_status 201 (JObj (object_literal
             [("success", Some (JBool true)); ("order", Some (JObj order'))])))
          (write_orders orders st)
          (match v with
           | Part001 => [HttpPost (store !! "url") "/api/orders" order']
           | _ => []
           end)
    end.

(** [SortCompare]: the number that the comparison function returns, with
    [NaN] read as [+0]. *)
Definition SortCompare {A : Type} (comparefn : A -> A -> option Z) (x y : A) : Z :=
  match comparefn x y with
  | Some n => n
  | None => 0%Z
  end.

(** [Array.prototype.sort(comparefn)].  The sort of the language is stable;
    it is embedded as the stable insertion sort, which is the result of any
    stable sort when the comparison function is a consistent order. *)
Fixpoint sort_insert {A : Type} (comparefn : A -> A -> option Z) (x : A) (sorted : list A)
  : list A :=
  match sorted with
  | [] => [x]
  | y :: rest =>
      if (0 <? SortCompare comparefn x y)%Z
      then y :: sort_insert comparefn x rest
      else x :: y :: rest
  end.

Definition Array_sort {A : Type} (comparefn : A -> A -> option Z) (xs : list A) : list A :=
  fold_right (sort_insert comparefn) [] xs.

(** [new Date(b.createdAt) - new Date(a.createdAt)]; the difference with
    an invalid date is [NaN]. *)
Definition newest_first (a b : Obj) : option Z :=
  match Date_new (b !! "createdAt"), Date_new (a !! "createdAt") with
  | Some tb, Some ta => Some (tb - ta)%Z
  | _, _ => None
  end.

(** The handler of [GET /api/orders].  The two query parameters are strings
    when present.  [main-server.js] sends the collection as it is stored;
    [part_000] and [part_001] filter and sort it. *)
Definition list_orders (v : Variant) (storeId status : option string) (st : State)
  : Outcome :=
  let orders := readJSON (orders_file st) in
  match v with
  | MainServer => mkOutcome (res_json (JArr (map JObj orders))) st []
  | _ =>
      let orders1 :=
        if truthy (JStr <$> storeId)
        then List.filter (has_storeId (JStr <$> storeId)) orders
        else orders in
      let orders2 :=
        if truthy (JStr <$> status) && negb (strict_eq (JStr <$> status) (Some (JStr "all")))
        then List.filter (fun o => strict_eq (o !! "status") (JStr <$> status)) orders1
        else orders1 in
      mkOutcome (res_json (JArr (map JObj (Array_sort newest_first orders2)))) st []
  end.

End Handlers.

(** ** The other handlers

    The routes that the files define beside the ones above: the debug view
    of the stores, the listing of the products and of their categories, and
    the update of the status of an order. *)

(** [String.prototype.toLowerCase] follows the case tables of Unicode and
    belongs to the runtime. *)
Class StringOps := {
  toLowerCase : string -> string
}.

(** [hay.includes(needle)] *)
Fixpoint includes (needle hay : string) : bool :=
  String.prefix needle hay
  || match hay with
     | EmptyString => false
     | String _ rest => includes needle rest
     end.

(** [xs.filter(p)] for a callback that can throw: [None] when a call
    throws, the calls being made in the order of the array. *)
Fixpoint filter_throwing {A : Type} (p : A -> option bool) (xs : list A)
  : option (list A) :=
  match xs with
  | [] => Some []
  | x :: rest =>
      match p x with
      | None => None
      | Some keep =>
          match filter_throwing p rest with
          | None => None
          | Some kept => Some (if keep then x :: kept else kept)
          end
      end
  end.

(** [new Set(values)] spread back to an array: the values in the order of
    their first occurrence, compared by SameValueZero, which on parsed JSON
    is [===]. *)
Definition Set_add (seen : list JVal) (x : JVal) : list JVal :=
  if existsb (fun y => strict_eq (Some y) (Some x)) seen then seen else seen ++ [x].

Definition Set_values (values : list JVal) : list JVal :=
  fold_left Set_add values [].

Section MoreHandlers.
Context `{Builtins} `{StringOps}.

(** The callback of the [map] of [GET /api/debug/stores]; [now] is the
    [Date.now()] of the call. *)
Definition debug_store (v : Variant) (now : Z) (store : Obj) : Obj :=
  let m := minutesAgo now store in
  let s1 :=
    set_field "status"
      (Some (JStr (if js_lt m (liveness_threshold v) then "online" else "offline"))) store in
  let s2 := set_field "minutesSinceLastSeen" (Some (Math_floor m)) s1 in
  match v with
  | Part000 => set_field "server" (Some (JStr "replit")) s2
  | _ => s2
  end.

(** [GET /api/debug/stores].  The callback reads the clock once for every
    store; [replitUrl] is [process.env.REPLIT_URL]. *)
Definition debug_stores (v : Variant) (clk : Clock) (replitUrl : option string) (st : State)
  : Outcome :=
  let stores := readJSON (stores_file st) in
  let storesWithStatus := imap (fun k store => debug_store v (clk k) store) stores in
  let totalStores := Some (jnat (length storesWithStatus)) in
  let online :=
    Some (jnat (length (List.filter
                          (fun s => strict_eq (s !! "status") (Some (JStr "online")))
                          storesWithStatus))) in
  let listed := Some (JArr (map JObj storesWithStatus)) in
  mkOutcome
    (res_json (JObj (object_literal
       match v with
       | MainServer =>
           [("server", Some (JStr "Replit Main Server"));
            ("totalStores", totalStores);
            ("onlineStores", online);
            ("stores", listed)]
       | Part000 =>
           [("server", Some (JStr "Replit Main Server"));
            ("totalStores", totalStores);
            ("onlineStores", online);
            ("replitUrl", js_or (JStr <$> replitUrl)
                            (Some (JStr "https://your-replit-url.repl.co")));
            ("stores", listed)]
       | Part001 =>
           [("totalStores", totalStores);
            ("onlineStores", online);
            ("stores", listed)]
       end)))
    st [].

(** The callback of the search of [GET /api/products]:
    [p.name.toLowerCase().includes(searchTerm) ||
     p.category.toLowerCase().includes(searchTerm)].  Calling [toLowerCase]
    on a value that is not a string throws; the category is only looked at
    when the name does not match. *)
Definition search_matches (searchTerm : string) (p : Obj) : option bool :=
  match p !! "name" with
  | Some (JStr name) =>
      if includes searchTerm (toLowerCase name) then Some true
      else
        match p !! "category" with
        | Some (JStr category) => Some (includes searchTerm (toLowerCase category))
        | _ => None
        end
  | _ => None
  end.

(** The handler of [GET /api/products].  [main-server.js] and [part_000]
    send the catalog as it is stored; [part_001] filters it by the three
    query parameters, and answers 500 when the search throws. *)
Definition list_products (v : Variant) (storeId category search : option string) (st : State)
  : Outcome :=
  let products := readJSON (products_file st) in
  match v with
  | Part001 =>
      let products1 :=
        if truthy (JStr <$> storeId)
        then List.filter (has_storeId (JStr <$> storeId)) products
        else products in
      let products2 :=
        if truthy (JStr <$> category)
           && negb (strict_eq (JStr <$> category) (Some (JStr "all")))
        then List.filter (fun p => strict_eq (p !! "category") (JStr <$> category)) products1
        else products1 in
      match search with
      | Some term =>
          if truthy (Some (JStr term)) then
            let searchTerm := toLowerCase term in
            match filter_throwing (search_matches searchTerm) products2 with
            | Some products3 => mkOutcome (res_json (JArr (map JObj products3))) st []
            | None =>
                mkOutcome (res_status 500 (error_body "Failed to fetch products")) st []
            end
          else mkOutcome (res_json (JArr (map JObj products2))) st []
      | None => mkOutcome (res_json (JArr (map JObj products2))) st []
      end
  | _ => mkOutcome (res_json (JArr (map JObj products))) st []
  end.

(** [products.map(p => p.category).filter(Boolean)] *)
Definition truthy_categories (products : list Obj) : list JVal :=
  omap (fun p => if truthy (p !! "category") then p !! "category" else None) products.

(** [GET /api/categories], the same in [part_000] and [part_001];
    [main-server.js] has no such route. *)
Definition list_categories (st : State) : Outcome :=
  let products := readJSON (products_file st) in
  let categories := Set_values (truthy_categories products) in
  mkOutcome (res_json (JArr categories)) st [].

(** [o => o.orderId === orderId], for the route parameter [orderId]. *)
Definition has_orderId (orderId : string) (o : Obj) : bool :=
  strict_eq (o !! "orderId") (Some (JStr orderId)).

(** The three assignments to [orders[orderIndex]]. *)
Definition patch_order (clk : Clock) (reqBody : Obj) (order : Obj) : Obj :=
  let o1 := set_field "status" (reqBody !! "status") order in
  let o2 := set_field "notes" (js_or (reqBody !! "notes") (o1 !! "notes")) o1 in
  set_field "updatedAt" (iso_now (clk 0%nat)) o2.

(** [PUT /api/orders/:orderId/status], the same in [part_000] and
    [part_001]; [main-server.js] has no such route. *)
Definition update_order_status (clk : Clock) (orderId : string) (reqBody : Obj) (st : State)
  : Outcome :=
  let orders := readJSON (orders_file st) in
  match findIndex (has_orderId orderId) orders with
  | None => mkOutcome (res_status 404 (error_body "Order not found")) st []
  | Some orderIndex =>
      let orders' := alter (patch_order clk reqBody) orderIndex orders in
      mkOutcome
        (res_json (JObj (object_literal
           [("success", Some (JBool true));
            ("order", JObj <$> orders' !! orderIndex)])))
        (write_orders orders' st) []
  end.

End MoreHandlers.

(** ** Provisioning of the data files *)

(** A data file on the disk: absent, present with something that is not
    JSON, or present with an array of records. *)
Inductive File :=
| Absent
| Unparsable
| Holds (data : list Obj).

Record Disk := mkDisk {
  disk_stores : File;
  disk_orders : File;
  disk_products : File
}.

(** What [readJSON] can get out of a file. *)
Definition parsed (f : File) : option (list Obj) :=
  match f with
  | Holds data => Some data
  | _ => None
  end.

Definition disk_state (d : Disk) : State :=
  mkState (parsed (disk_stores d)) (parsed (disk_orders d)) (parsed (disk_products d)).

(** [try { await fs.access(file) } catch { await fs.writeFile(file, '[]') }] *)
Definition provision (f : File) : File :=
  match f with
  | Absent => Holds []
  | _ => f
  end.

(** [ensureDataDir()], the same on the three files in the three variants:
    when [fs.mkdir] throws, the error is logged and no file is looked at. *)
Definition ensureDataDir (mkdir_ok : bool) (d : Disk) : Disk :=
  if mkdir_ok
  then mkDisk (provision (disk_stores d)) (provision (disk_orders d))
         (provision (disk_products d))
  else d.

(** ** A concrete runtime

    An implementation of the built-ins, used to run the handlers on
    concrete requests: [toISOString] as the language defines it, [Date.parse]
    on the format that [toISOString] writes (the only format whose parse the
    language fixes), and the string conversion of arrays and objects, in
    which a number prints in decimal when it is an integer. *)

Module Iso.

Definition digit_char (n : Z) : ascii := ascii_of_nat (48 + Z.to_nat (n mod 10)).

Fixpoint digits (width : nat) (n : Z) : string :=
  match width with
  | O => ""
  | S w => (digits w (n / 10) ++ String (digit_char n) "")%string
  end.

(** The civil date of a day number, day 0 being 1970-01-01. *)
Definition civil_from_days (z : Z) : Z * Z * Z :=
  (let z := z + 719468 in
   let era := z / 146097 in
   let doe := z - era * 146097 in
   let yoe := (doe - doe / 1460 + doe / 36524 - doe / 146096) / 365 in
   let doy := doe - (365 * yoe + yoe / 4 - yoe / 100) in
   let mp := (5 * doy + 2) / 153 in
   let d := doy - (153 * mp + 2) / 5 + 1 in
   let m := if mp <? 10 then mp + 3 else mp - 9 in
   let y := yoe + era * 400 + (if m <=? 2 then 1 else 0) in
   (y, m, d))%Z.

Definition days_from_civil (y m d : Z) : Z :=
  (let y := if m <=? 2 then y - 1 else y in
   let era := y / 400 in
   let yoe := y - era * 400 in
   let doy := (153 * (if 2 <? m then m - 3 else m + 9) + 2) / 5 + d - 1 in
   let doe := yoe * 365 + yoe / 4 - yoe / 100 + doy in
   era * 146097 + doe - 719468)%Z.

Definition year_string (y : Z) : string :=
  if ((0 <=? y) && (y <=? 9999))%Z then digits 4 y
  else ((if (y <? 0)%Z then "-" else "+") ++ digits 6 (Z.abs y))%string.

Definition to_iso_string (t : Z) : string :=
  let day := (t / 86400000)%Z in
  let ms := (t mod 86400000)%Z in
  let '(y, m, d) := civil_from_days day in
  (year_string y ++ "-" ++ digits 2 m ++ "-" ++ digits 2 d ++ "T"
   ++ digits 2 (ms / 3600000) ++ ":" ++ digits 2 (ms / 60000 mod 60) ++ ":"
   ++ digits 2 (ms / 1000 mod 60) ++ "." ++ digits 3 (ms mod 1000) ++ "Z")%string.

Definition digit_value (c : ascii) : option Z :=
  let n := Z.of_nat (nat_of_ascii c) in
  if ((48 <=? n) && (n <=? 57))%Z then Some (n - 48)%Z else None.

Fixpoint read_digits (width : nat) (acc : Z) (s : string) : option (Z * string) :=
  match width with
  | O => Some (acc, s)
  | S w =>
      match s with
      | String c rest =>
          match digit_value c with
          | Some d => read_digits w (acc * 10 + d)%Z rest
          | None => None
          end
      | EmptyString => None
      end
  end.

Definition expect (c : ascii) (s : string) : option string :=
  match s with
  | String c' rest => if Ascii.eqb c c' then Some rest else None
  | EmptyString => None
  end.

Definition days_in_month (y m : Z) : Z :=
  (days_from_civil (if m =? 12 then y + 1 else y) (if m =? 12 then 1 else m + 1) 1
   - days_from_civil y m 1)%Z.

(** [YYYY-MM-DDTHH:mm:ss.sssZ] *)
Definition parse_iso (s : string) : option Z :=
  '(y, s) ← read_digits 4 0 s;
  s ← expect "-" s;
  '(m, s) ← read_digits 2 0 s;
  s ← expect "-" s;
  '(d, s) ← read_digits 2 0 s;
  s ← expect "T" s;
  '(hh, s) ← read_digits 2 0 s;
  s ← expect ":" s;
  '(mm, s) ← read_digits 2 0 s;
  s ← expect ":" s;
  '(ss, s) ← read_digits 2 0 s;
  s ← expect "." s;
  '(ms, s) ← read_digits 3 0 s;
  s ← expect "Z" s;
  if (String.eqb s "" && (1 <=? m) && (m <=? 12) && (1 <=? d) && (d <=? days_in_month y m)
      && (hh <=? 23) && (mm <=? 59) && (ss <=? 59))%Z
  then Some (days_from_civil y m d * 86400000 + hh * 3600000 + mm * 60000 + ss * 1000 + ms)%Z
  else None.

Definition number_string (q : Q) : string :=
  if (Qnum q mod Zpos (Qden q) =? 0)%Z then pretty (Qnum q / Zpos (Qden q))%Z
  else (pretty (Qnum q) ++ "/" ++ pretty (Zpos (Qden q)))%string.

Fixpoint to_string (v : JVal) : string :=
  match v with
  | JNull => "null"
  | JBool b => if b then "true" else "false"
  | JNum q => number_string q
  | JStr s => s
  | JArr l =>
      String.concat ","
        (map (fun x => match x with JNull => "" | _ => to_string x end) l)
  | JObj _ => "[object Object]"
  end.

#[export] Instance builtins : Builtins := {|
  toISOString := to_iso_string;
  Date_parse := parse_iso;
  ToPrimitive := to_string
|}.

End Iso.

(** The lower case of the letters A to Z; every other character is left as
    it is, which is [toLowerCase] on the strings that hold no other upper
    case letter. *)
Module AsciiOps.

Definition lower_char (c : ascii) : ascii :=
  let n := nat_of_ascii c in
  if ((65 <=? n) && (n <=? 90))%nat then ascii_of_nat (n + 32) else c.

Fixpoint to_lower (s : string) : string :=
  match s with
  | EmptyString => EmptyString
  | String c rest => String (lower_char c) (to_lower rest)
  end.

#[export] Instance string_ops : StringOps := {|
  toLowerCase := to_lower
|}.

End AsciiOps.

(** ** Vocabulary of the properties *)

(** The liveness threshold in whole minutes. *)
Definition threshold_minutes (v : Variant) : Z :=
  match v with
  | Part001 => 5%Z
  | _ => 10%Z
  end.

Definition minute : Z := 60000%Z.

(** The request that a synchronisation sends for a store. *)
Definition products_request (store : Obj) : Request :=
  HttpGet (store !! "url") "/api/products".

(** A fetch whose products are not ingested: it throws, or the response is
    not [ok], or its body does not parse. *)
Definition fetch_fails (r : FetchResult) : Prop :=
  match r with
  | FetchResponse true (inr _) => False
  | _ => True
  end.

(** The liveness view: the gap [now - lastSeen] is below the threshold. *)
Definition live `{Builtins} (v : Variant) (now : Z) (store : Obj) : bool :=
  js_lt (minutesAgo now store) (liveness_threshold v).

(** The fields of the record that [manual-add] builds. *)
Definition manual_add_fields (v : Variant) : list string :=
  ["storeId"; "name"; "location"; "url"; "lastSeen"; "status"]
  ++ match v with
     | Part000 => ["addedManually"]
     | _ => []
     end.

(** The fields that [register] assigns itself. *)
Definition register_fields (v : Variant) : list string :=
  ["lastSeen"; "status"]
  ++ match v with
     | Part001 => []
     | _ => ["registeredAt"]
     end.

(** The three collections of a state. *)
Definition stores_of (st : State) : list Obj := readJSON (stores_file st).

Definition orders_of (st : State) : list Obj := readJSON (orders_file st).

Definition products_of (st : State) : list Obj := readJSON (products_file st).

(** The instant an order was created, when its [createdAt] is a date. *)
Definition createdAt_valid `{Builtins} (o : Obj) : Prop :=
  is_Some (Date_new (o !! "createdAt")).

Definition createdAt `{Builtins} (o : Obj) : Z :=
  default 0%Z (Date_new (o !! "createdAt")).

(** The value that a query parameter filters on: none when the parameter
    is absent or empty and, for the status, when it is "all". *)
Definition filter_value (q : option string) : option string :=
  match q with
  | Some s => if String.eqb s "" then None else Some s
  | None => None
  end.

Definition status_filter (q : option string) : option string :=
  match filter_value q with
  | Some s => if String.eqb s "all" then None else Some s
  | None => None
  end.

(** The orders that a listing with the given query parameters selects:
    those that match every filter exactly. *)
Definition order_selected (storeId status : option string) (o : Obj) : bool :=
  match filter_value storeId with
  | Some id => has_storeId (Some (JStr id)) o
  | None => true
  end
  && match status_filter status with
     | Some wanted => strict_eq (o !! "status") (Some (JStr wanted))
     | None => true
     end.

(** No two stores have the same [storeId]: no later record has the
    [storeId] of an earlier one. *)
Fixpoint distinct_storeIds (stores : list Obj) : bool :=
  match stores with
  | [] => true
  | s :: rest =>
      forallb (fun r => negb (has_storeId (s !! "storeId") r)) rest
      && distinct_storeIds rest
  end.

(** The place of the record that a registration writes: the first record
    with the [storeId] of the request, or the end of the collection. *)
Definition upsert_position (storeId : option JVal) (stores : list Obj) : nat :=
  match findIndex (has_storeId storeId) stores with
  | Some i => i
  | None => length stores
  end.



(** The products that a listing with the given query parameters selects
    before the search. *)
Definition product_selected (storeId category : option string) (p : Obj) : bool :=
  match filter_value storeId with
  | Some id => has_storeId (Some (JStr id)) p
  | None => true
  end
  && match status_filter category with
     | Some wanted => strict_eq (p !! "category") (Some (JStr wanted))
     | None => true
     end.

(** A product that the search can look at: its name is a string, and so is
    its category. *)
Definition searchable (p : Obj) : Prop :=
  (exists name, p !! "name" = Some (JStr name))
  /\ (exists category, p !! "category" = Some (JStr category)).

(** The name or the category of the product holds the term, whatever the
    case of the letters. *)
Definition name_or_category_holds `{StringOps} (term : string) (p : Obj) : bool :=
  match p !! "name", p !! "category" with
  | Some (JStr name), Some (JStr category) =>
      includes (toLowerCase term) (toLowerCase name)
      || includes (toLowerCase term) (toLowerCase category)
  | _, _ => false
  end.

(** The fields that the update of the status of an order assigns. *)
Definition patch_fields : list string := ["status"; "notes"; "updatedAt"].

(** The fields that the creation of an order assigns. *)
Definition order_fields : list string := ["orderId"; "createdAt"; "status"; "storeName"].

(** A product on which the callback of the search throws: its name is not
    a string, or its name does not hold the term and its category is not a
    string. *)
Definition search_throws `{StringOps} (term : string) (p : Obj) : Prop :=
  (forall name, p !! "name" <> Some (JStr name))
  \/ (exists name,
        p !! "name" = Some (JStr name)
        /\ includes (toLowerCase term) (toLowerCase name) = false
        /\ forall category, p !! "category" <> Some (JStr category)).

(** No two values of the list are [===]. *)
Definition pairwise_distinct (values : list JVal) : Prop :=
  forall i j a b,
    values !! i = Some a -> values !! j = Some b -> i <> j ->
    strict_eq (Some a) (Some b) = false.

(** ** Sample data *)

Module Sample.

(** A clock that stands still during a request. *)
Definition at_instant (t : Z) : Clock := fun _ => t.

(** 2024-01-01T00:00:00.000Z *)
Definition new_year : Z := 1704067200000%Z.

Definition net_down : Net := fun _ _ => FetchThrows "fetch failed".

Definition empty_state : State := mkState (Some []) (Some []) (Some []).

Definition store_seen (id : string) (lastSeen : Z) (status : string) : Obj :=
  object_literal
    [("storeId", Some (JStr id));
     ("name", Some (JStr ("Store " ++ id)%string));
     ("url", Some (JStr ("http://" ++ id ++ ".example")%string));
     ("lastSeen", Some (JStr (Iso.to_iso_string lastSeen)));
     ("status", Some (JStr status))].

Definition with_stores (stores : list Obj) : State := mkState (Some stores) (Some []) (Some []).

(** The body of a registration request. *)
Definition registration (id : string) : Obj :=
  object_literal
    [("storeId", Some (JStr id));
     ("name", Some (JStr ("Store " ++ id)%string));
     ("url", Some (JStr ("http://" ++ id ++ ".example")%string))].

(** A stored record with a field of its own. *)
Definition store_with_phone (id : string) : Obj :=
  set_field "phone" (Some (JStr "555-0100")) (store_seen id new_year "offline").

Definition one_hour : Z := 3600000%Z.

Definition product (storeId name : string) : Obj :=
  object_literal
    [("storeId", Some (JStr storeId));
     ("name", Some (JStr name));
     ("category", Some (JStr "grocery"))].

(** Remote stores that give the listed answers, one per request, and are
    unreachable afterwards. *)
Definition net_script (answers : list FetchResult) : Net :=
  fun k _ => nth k answers (FetchThrows "fetch failed").

(** An order as [POST /api/orders] stores it. *)
Definition order_at (storeId : string) (created : Z) : Obj :=
  object_literal
    [("orderId", Some (JStr ("MAIN-ORD-" ++ pretty created)%string));
     ("storeId", Some (JStr storeId));
     ("items", Some (JArr [JStr "bread"]));
     ("customer", Some (JObj {[ "name" := JStr "Ada" ]}));
     ("createdAt", Some (JStr (Iso.to_iso_string created)));
     ("status", Some (JStr "pending"));
     ("storeName", Some (JStr ("Store " ++ storeId)%string))].

Definition three_orders : list Obj :=
  [order_at "s1" new_year;
   order_at "s2" (new_year + one_hour);
   order_at "s1" (new_year + 2 * one_hour)].

Definition orders_state (orders : list Obj) : State :=
  mkState (Some []) (Some orders) (Some []).

Definition two_stores : list Obj :=
  [store_seen "s1" new_year "online"; store_seen "s2" new_year "online"].

Definition catalog_state (stores products : list Obj) : State :=
  mkState (Some stores) (Some []) (Some products).


(** The body of an order request. *)
Definition order_request (storeId : string) : Obj :=
  object_literal
    [("storeId", Some (JStr storeId));
     ("items", Some (JArr [JStr "bread"]));
     ("customer", Some (JObj {[ "name" := JStr "Ada" ]}));
     ("status", Some (JStr "delivered"))].

Definition shirt : Obj :=
  object_literal
    [("storeId", Some (JStr "s1"));
     ("name", Some (JStr "Blue Shirt"));
     ("category", Some (JStr "Clothing"))].

Definition nameless : Obj :=
  object_literal
    [("storeId", Some (JStr "s1")); ("category", Some (JStr "grocery"))].

Definition products_state (products : list Obj) : State :=
  mkState (Some []) (Some []) (Some products).

End Sample.

(** ** Properties *)

Example iso_epoch : Iso.to_iso_string 0 = "1970-01-01T00:00:00.000Z".
Proof. reflexivity. Qed.

Example iso_2024 : Iso.to_iso_string 1709210096789 = "2024-02-29T12:34:56.789Z".
Proof. vm_compute. reflexivity. Qed.

Example iso_parse_2024 : Iso.parse_iso "2024-02-29T12:34:56.789Z" = Some 1709210096789%Z.
Proof. vm_compute. reflexivity. Qed.

Example iso_parse_bad_day : Iso.parse_iso "2023-02-29T12:34:56.789Z" = None.
Proof. vm_compute. reflexivity. Qed.

Example iso_new_year : Iso.to_iso_string Sample.new_year = "2024-01-01T00:00:00.000Z".
Proof. vm_compute. reflexivity. Qed.

(** *** Fields of records *)

Lemma set_field_same k v (r : Obj) : set_field k v r !! k = v.
Proof.
  destruct v as [x|]; simpl.
  - apply lookup_insert_eq.
  - apply lookup_delete_eq.
Qed.

Lemma set_field_other k k' v (r : Obj) : k <> k' -> set_field k v r !! k' = r !! k'.
Proof.
  intros Hne. destruct v as [x|]; simpl.
  - by apply lookup_insert_ne.
  - by apply lookup_delete_ne.
Qed.

Lemma object_literal_absent fields k :
  ~ In k (map fst fields) -> object_literal fields !! k = None.
Proof.
  induction fields as [|[k' v] rest IH]; simpl; intros Hk.
  - apply lookup_empty.
  - rewrite set_field_other by tauto. apply IH. tauto.
Qed.

Lemma spread_new (old new : Obj) k x : new !! k = Some x -> spread old new !! k = Some x.
Proof. intros Hk. unfold spread. by apply lookup_union_Some_l. Qed.

Lemma spread_old (old new : Obj) k : new !! k = None -> spread old new !! k = old !! k.
Proof. intros Hk. unfold spread. by apply lookup_union_r. Qed.

(** *** [findIndex] and [find] *)

Lemma findIndex_Some {A} (p : A -> bool) xs i :
  findIndex p xs = Some i ->
  exists x, xs !! i = Some x /\ p x = true /\ forall j y, (j < i)%nat -> xs !! j = Some y -> p y = false.
Proof.
  revert i. induction xs as [|x rest IH]; simpl; intros i Hi; [discriminate|].
  destruct (p x) eqn:Hx.
  - injection Hi as <-. exists x. split; [reflexivity|]. split; [assumption|]. intros j y Hj. lia.
  - destruct (findIndex p rest) as [i'|] eqn:Hrest; simpl in Hi; [|discriminate].
    injection Hi as <-. destruct (IH i' eq_refl) as (y & Hy & Hpy & Hfirst).
    exists y. split; [assumption|]. split; [assumption|].
    intros [|j] z Hj Hz; simpl in Hz.
    + congruence.
    + apply (Hfirst j); [lia|assumption].
Qed.

Lemma findIndex_None {A} (p : A -> bool) xs :
  findIndex p xs = None <-> forall x, In x xs -> p x = false.
Proof.
  induction xs as [|x rest IH]; simpl.
  - split; [intros _ y []|reflexivity].
  - destruct (p x) eqn:Hx.
    + split; [discriminate|]. intros Hall. rewrite (Hall x) in Hx by auto. discriminate.
    + destruct (findIndex p rest) as [i|]; simpl.
      * split; [discriminate|]. intros Hall.
        assert (Hrest : Some i = None) by (apply IH; auto).
        discriminate.
      * split; [|reflexivity]. intros _ y [<-|Hy]; [assumption|]. by apply IH.
Qed.

Lemma find_None_iff {A} (p : A -> bool) xs :
  List.find p xs = None <-> forall x, In x xs -> p x = false.
Proof.
  split.
  - intros Hf x Hx. by apply (List.find_none p xs).
  - induction xs as [|x rest IH]; simpl; intros Hall; [reflexivity|].
    rewrite (Hall x) by auto. apply IH. auto.
Qed.

(** *** Liveness of a store *)

Lemma liveness_threshold_minutes v : liveness_threshold v = inject_Z (threshold_minutes v).
Proof. destruct v; reflexivity. Qed.

(** The comparison of the minutes, done on the milliseconds. *)
Lemma js_lt_minutes (gap n : Z) :
  js_lt (Some (inject_Z gap / inject_Z (1000 * 60))%Q) (inject_Z n) = (gap <? n * minute)%Z.
Proof.
  unfold js_lt, Qle_bool, Qdiv, Qmult, Qinv, inject_Z, minute; simpl.
  rewrite Z.ltb_antisym. f_equal. f_equal; lia.
Qed.

Lemma refresh_status_status `{Builtins} v now store :
  refresh_status v now store !! "status"
  = Some (JStr (if live v now store then "online" else "offline")).
Proof.
  unfold refresh_status, live.
  destruct v; rewrite ?set_field_other by discriminate; apply set_field_same.
Qed.

Lemma live_valid `{Builtins} v now store t :
  Date_new (store !! "lastSeen") = Some t ->
  live v now store = (now - t <? threshold_minutes v * minute)%Z.
Proof.
  intros Ht. unfold live, minutesAgo. rewrite Ht, liveness_threshold_minutes.
  apply js_lt_minutes.
Qed.


Lemma list_stores_lookup `{Builtins} v clk st i store :
  stores_of st !! i = Some store ->
  stores_of (final (list_stores v clk st)) !! i = Some (refresh_status v (clk 0%nat) store).
Proof.
  intros Hi. unfold list_stores, stores_of; simpl.
  rewrite list_lookup_fmap. unfold stores_of in Hi. by rewrite Hi.
Qed.

(** C5.  [GET /api/stores] answers 200 with the stores it has written
    back, and the status it gives to a store whose [lastSeen] is the
    instant [t] is "online" exactly when [now - t] is strictly below the
    threshold of the variant (10 minutes, 5 in [part_001]) and "offline"
    otherwise: offline at a gap equal to the threshold, and under the
    10-minute threshold online at 9 minutes and offline at 11. *)
Theorem list_stores_status_by_gap `{Builtins} v clk st i store t :
  stores_of st !! i = Some store ->
  Date_new (store !! "lastSeen") = Some t ->
  let now := clk 0%nat in
  let gap := (now - t)%Z in
  let out := list_stores v clk st in
  exists store',
    stores_of (final out) !! i = Some store'
    /\ response out = res_json (JArr (map JObj (stores_of (final out))))
    /\ store' !! "status"
       = Some (JStr (if (gap <? threshold_minutes v * minute)%Z then "online" else "offline"))
    /\ (gap = threshold_minutes v * minute -> store' !! "status" = Some (JStr "offline"))%Z
    /\ (threshold_minutes v = 10 -> gap = 9 * minute ->
        store' !! "status" = Some (JStr "online"))%Z
    /\ (threshold_minutes v = 10 -> gap = 11 * minute ->
        store' !! "status" = Some (JStr "offline"))%Z.
Proof.
  intros Hi Ht now gap out.
  exists (refresh_status v now store).
  assert (Hstatus : refresh_status v now store !! "status"
                    = Some (JStr (if (gap <? threshold_minutes v * minute)%Z
                                  then "online" else "offline"))).
  { rewrite refresh_status_status, (live_valid v now store t Ht). reflexivity. }
  split; [by apply list_stores_lookup|].
  split; [reflexivity|].
  split; [exact Hstatus|].
  rewrite Hstatus. repeat split.
  - intros ->. by rewrite Z.ltb_irrefl.
  - intros -> ->. reflexivity.
  - intros -> ->. reflexivity.
Qed.

Lemma list_stores_status_by_gap_witness :
  let store := Sample.store_seen "s1" Sample.new_year "offline" in
  let st := Sample.with_stores [store] in
  let clk := Sample.at_instant (Sample.new_year + 9 * minute) in
  exists store' : Obj,
    stores_of (final (list_stores (H := Iso.builtins) MainServer clk st)) !! 0%nat
    = Some store'
    /\ store' !! "status" = Some (JStr "online").
Proof.
  intros store st clk.
  destruct (list_stores_status_by_gap (H := Iso.builtins) MainServer clk st 0 store
              Sample.new_year)
    as (store' & Hlookup & _ & _ & _ & Hnine & _).
  - reflexivity.
  - vm_compute. reflexivity.
  - exists store'. split; [exact Hlookup|]. apply Hnine.
    + reflexivity.
    + vm_compute. reflexivity.
Defined.



(** *** Registration and manual addition *)

Lemma register_stamp_other `{Builtins} v clk storeInfo k :
  ~ In k (register_fields v) -> register_stamp v clk storeInfo !! k = storeInfo !! k.
Proof.
  intros Hk. unfold register_stamp.
  destruct v; simpl in Hk; rewrite ?set_field_other by (intros <-; tauto); reflexivity.
Qed.

Lemma register_stamp_storeId `{Builtins} v clk storeInfo :
  register_stamp v clk storeInfo !! "storeId" = storeInfo !! "storeId".
Proof.
  apply register_stamp_other. destruct v; simpl; intuition discriminate.
Qed.

Lemma register_stamp_lastSeen `{Builtins} v clk storeInfo :
  register_stamp v clk storeInfo !! "lastSeen" = iso_now (clk 0%nat).
Proof.
  unfold register_stamp.
  destruct v; rewrite ?set_field_other by discriminate; apply set_field_same.
Qed.

Lemma register_stamp_status `{Builtins} v clk storeInfo :
  register_stamp v clk storeInfo !! "status" = Some (JStr "online").
Proof.
  unfold register_stamp.
  destruct v; rewrite ?set_field_other by discriminate; apply set_field_same.
Qed.

(** What [register] writes to [registeredAt], variant by variant: the
    instant of the request in [main-server.js]; the [registeredAt] of the
    request body, or the instant of the request when the body has none, in
    [part_000]; nothing in [part_001].  The stored record is not read. *)
Lemma register_stamp_registeredAt `{Builtins} v clk storeInfo :
  register_stamp v clk storeInfo !! "registeredAt"
  = match v with
    | MainServer => iso_now (clk 1%nat)
    | Part000 => js_or (storeInfo !! "registeredAt") (iso_now (clk 1%nat))
    | Part001 => storeInfo !! "registeredAt"
    end.
Proof.
  unfold register_stamp. destruct v; rewrite ?set_field_same.
  - reflexivity.
  - rewrite !set_field_other by discriminate. reflexivity.
  - rewrite !set_field_other by discriminate. reflexivity.
Qed.

Lemma register_final `{Builtins} v clk net reqBody st :
  register_rejects v reqBody = false ->
  stores_of (final (register v clk net reqBody st))
  = register_stores (stores_of st) (register_stamp v clk reqBody)
  /\ code (response (register v clk net reqBody st)) = 200%nat.
Proof.
  intros Hok. unfold register. rewrite Hok. destruct v; split; reflexivity.
Qed.

(** Re-registration merges: the record stored at the place of the old one
    takes the stamped fields and every field of the request body, and keeps
    the fields of the old record that the body does not have. *)
Lemma register_existing_merges `{Builtins} v clk net reqBody st i old :
  register_rejects v reqBody = false ->
  findIndex (has_storeId (reqBody !! "storeId")) (stores_of st) = Some i ->
  stores_of st !! i = Some old ->
  let merged := spread old (register_stamp v clk reqBody) in
  stores_of (final (register v clk net reqBody st)) !! i = Some merged
  /\ merged !! "lastSeen" = iso_now (clk 0%nat)
  /\ merged !! "status" = Some (JStr "online")
  /\ (forall k x, ~ In k (register_fields v) -> reqBody !! k = Some x -> merged !! k = Some x)
  /\ (forall k, ~ In k (register_fields v) -> reqBody !! k = None -> merged !! k = old !! k).
Proof.
  intros Hok Hfind Hold merged.
  destruct (register_final v clk net reqBody st Hok) as [-> _].
  unfold register_stores. rewrite register_stamp_storeId, Hfind.
  split; [|split; [|split; [|split]]].
  - rewrite list_lookup_alter, Hold. by rewrite decide_True.
  - apply spread_new, register_stamp_lastSeen.
  - apply spread_new, register_stamp_status.
  - intros k x Hk Hx. apply spread_new. by rewrite register_stamp_other.
  - intros k Hk Hx. apply spread_old. by rewrite register_stamp_other.
Qed.

(** The [registeredAt] of a store that registers again with a body that has
    none: the instant of the new request in [main-server.js] and [part_000],
    the stored one in [part_001], which never assigns the field. *)
Lemma register_again_registeredAt `{Builtins} v clk net reqBody st i old :
  register_rejects v reqBody = false ->
  findIndex (has_storeId (reqBody !! "storeId")) (stores_of st) = Some i ->
  stores_of st !! i = Some old ->
  reqBody !! "registeredAt" = None ->
  exists merged : Obj,
    stores_of (final (register v clk net reqBody st)) !! i = Some merged
    /\ merged !! "registeredAt"
       = match v with
         | Part001 => old !! "registeredAt"
         | _ => iso_now (clk 1%nat)
         end.
Proof.
  intros Hok Hfind Hold Hnone.
  destruct (register_existing_merges v clk net reqBody st i old Hok Hfind Hold)
    as (Hmerged & _).
  eexists. split; [exact Hmerged|].
  pose proof (register_stamp_registeredAt v clk reqBody) as Hstamp.
  destruct v.
  - by apply spread_new.
  - apply spread_new. rewrite Hstamp, Hnone. reflexivity.
  - apply spread_old. by rewrite Hstamp.
Qed.

(** In [main-server.js] and [part_000] a request without [storeId] or
    without [name] is answered 400 and changes nothing. *)
Lemma register_guard `{Builtins} v clk net reqBody st :
  v <> Part001 ->
  truthy (reqBody !! "storeId") = false \/ truthy (reqBody !! "name") = false ->
  register v clk net reqBody st
  = mkOutcome (res_status 400 (error_body (register_error v))) st [].
Proof.
  intros Hv Hmissing. unfold register.
  assert (Hrej : register_rejects v reqBody = true).
  { destruct v; [| |congruence]; simpl; destruct Hmissing as [-> | ->]; simpl;
      rewrite ?orb_true_r; reflexivity. }
  by rewrite Hrej.
Qed.

Lemma register_guard_passed v reqBody :
  v <> Part001 ->
  register_rejects v reqBody = false ->
  truthy (reqBody !! "storeId") = true /\ truthy (reqBody !! "name") = true.
Proof.
  intros Hv. destruct v; [| |congruence]; simpl; intros Hok;
    repeat (apply orb_false_elim in Hok; destruct Hok as [Hok ?]);
    split; by apply negb_false_iff.
Qed.

Lemma manual_add_record_storeId `{Builtins} v clk reqBody :
  manual_add_record v clk reqBody !! "storeId" = reqBody !! "storeId".
Proof. unfold manual_add_record. simpl. apply set_field_same. Qed.

Lemma manual_add_record_absent `{Builtins} v clk reqBody k :
  ~ In k (manual_add_fields v) -> manual_add_record v clk reqBody !! k = None.
Proof.
  intros Hk. unfold manual_add_record. apply object_literal_absent.
  destruct v; exact Hk.
Qed.

(** C6.  When the stores hold a record with the [storeId] of a
    [manual-add] request that passes the guard of the handler, the request
    is answered 200 and the first such record is replaced by the record
    that the handler builds from the request: its fields are those that
    [manual-add] sets and no other, so a field of the old record that is
    not among them is gone, whatever the old record held.  A registration
    in the same place merges instead: a field of the old record that the
    body does not carry, and that [register] does not assign, is kept. *)
Theorem manual_add_replaces_wholesale `{Builtins} v clk reqBody st i old :
  manual_add_rejects v reqBody = false ->
  findIndex (has_storeId (reqBody !! "storeId")) (stores_of st) = Some i ->
  stores_of st !! i = Some old ->
  let out := manual_add v clk reqBody st in
  let fresh := manual_add_record v clk reqBody in
  code (response out) = 200%nat
  /\ stores_of (final out) = <[i := fresh]> (stores_of st)
  /\ stores_of (final out) !! i = Some fresh
  /\ (forall k, ~ In k (manual_add_fields v) -> fresh !! k = None)
  /\ (forall v' clk' net,
        register_rejects v' reqBody = false ->
        exists merged : Obj,
          stores_of (final (register v' clk' net reqBody st)) !! i = Some merged
          /\ forall k, ~ In k (register_fields v') -> reqBody !! k = None ->
                       merged !! k = old !! k).
Proof.
  intros Hok Hfind Hold out fresh.
  assert (Hfinal : stores_of (final out) = <[i := fresh]> (stores_of st)).
  { unfold out, manual_add. rewrite Hok. unfold stores_of at 1; simpl.
    unfold manual_add_stores. fold (stores_of st). by rewrite Hfind. }
  split; [unfold out, manual_add; by rewrite Hok|].
  split; [exact Hfinal|].
  split; [rewrite Hfinal; apply list_lookup_insert_eq; by eapply lookup_lt_Some|].
  split; [intros k Hk; by apply manual_add_record_absent|].
  intros v' clk' net Hreg.
  destruct (register_existing_merges v' clk' net reqBody st i old Hreg Hfind Hold)
    as (Hmerged & _ & _ & _ & Hkept).
  eexists. split; [exact Hmerged|exact Hkept].
Qed.

Lemma manual_add_replaces_wholesale_witness :
  let st := Sample.with_stores [Sample.store_with_phone "s1"] in
  let out := manual_add (H := Iso.builtins) Part001
               (Sample.at_instant (Sample.new_year + Sample.one_hour))
               (Sample.registration "s1") st in
  Sample.store_with_phone "s1" !! "phone" = Some (JStr "555-0100")
  /\ exists fresh : Obj, stores_of (final out) !! 0%nat = Some fresh /\ fresh !! "phone" = None.
Proof.
  intros st out. split; [vm_compute; reflexivity|].
  destruct (manual_add_replaces_wholesale (H := Iso.builtins) Part001
              (Sample.at_instant (Sample.new_year + Sample.one_hour))
              (Sample.registration "s1") st 0 (Sample.store_with_phone "s1"))
    as (_ & _ & Hfresh & Habsent & _).
  - vm_compute. reflexivity.
  - vm_compute. reflexivity.
  - reflexivity.
  - eexists. split; [exact Hfresh|]. apply Habsent. vm_compute. intuition discriminate.
Defined.

(** C1.  Registering a store again does not keep the [registeredAt] of
    its first registration.  A store registers at 00:00 and again, with
    the same body, at 01:00: in [main-server.js] and in [part_000] the
    record stored after the second request has the [registeredAt] of 01:00
    (and, as stated, the [lastSeen] of 01:00 and the status "online"). *)
Theorem register_again_overwrites_registeredAt :
  let body := Sample.registration "s1" in
  let t1 := Sample.new_year in
  let t2 := (Sample.new_year + Sample.one_hour)%Z in
  let twice v :=
    let first := register (H := Iso.builtins) v (Sample.at_instant t1) Sample.net_down body
                   Sample.empty_state in
    let second := register (H := Iso.builtins) v (Sample.at_instant t2) Sample.net_down body
                    (final first) in
    (stores_of (final first) !! 0%nat ≫= (.!! "registeredAt"),
     length (stores_of (final second)),
     stores_of (final second) !! 0%nat ≫= (.!! "registeredAt"),
     stores_of (final second) !! 0%nat ≫= (.!! "lastSeen")) in
  twice MainServer
  = (Some (JStr "2024-01-01T00:00:00.000Z"), 1%nat,
     Some (JStr "2024-01-01T01:00:00.000Z"), Some (JStr "2024-01-01T01:00:00.000Z"))
  /\ twice Part000
     = (Some (JStr "2024-01-01T00:00:00.000Z"), 1%nat,
        Some (JStr "2024-01-01T01:00:00.000Z"), Some (JStr "2024-01-01T01:00:00.000Z")).
Proof. split; vm_compute; reflexivity. Qed.

(** C3.  [part_001] registers a request body that has no [storeId]: the
    request is answered 200 and a record without [storeId] is appended to
    the stores.  ([main-server.js] and [part_000] answer 400 and append
    nothing, see [register_guard].) *)
Theorem register_part001_accepts_missing_storeId :
  let body : Obj := object_literal [("name", Some (JStr "Corner shop"))] in
  let out := register (H := Iso.builtins) Part001 (Sample.at_instant Sample.new_year)
               Sample.net_down body Sample.empty_state in
  body !! "storeId" = None
  /\ code (response out) = 200%nat
  /\ stores_of Sample.empty_state = []
  /\ exists stored : Obj,
       stores_of (final out) = [stored]
       /\ stored !! "storeId" = None
       /\ stored !! "name" = Some (JStr "Corner shop").
Proof.
  intros body out. split; [reflexivity|]. split; [reflexivity|]. split; [reflexivity|].
  eexists. split; [reflexivity|]. split; vm_compute; reflexivity.
Qed.

(** *** Synchronisation of the catalog *)

Lemma filter_filter_same {A} (p : A -> bool) xs :
  List.filter p (List.filter p xs) = List.filter p xs.
Proof.
  induction xs as [|x rest IH]; simpl; [reflexivity|].
  destruct (p x) eqn:Hx; simpl; rewrite ?Hx, IH; reflexivity.
Qed.

Lemma filter_filter_negb {A} (p : A -> bool) xs :
  List.filter p (List.filter (fun x => negb (p x)) xs) = [].
Proof.
  induction xs as [|x rest IH]; simpl; [reflexivity|].
  destruct (p x) eqn:Hx; simpl; rewrite ?Hx; exact IH.
Qed.

Lemma filter_all_true {A} (p : A -> bool) xs :
  Forall (fun x => p x = true) xs -> List.filter p xs = xs.
Proof.
  induction 1 as [|x rest Hx _ IH]; simpl; [reflexivity|]. by rewrite Hx, IH.
Qed.

(** The products of the other stores come first, as they were. *)
Lemma replace_products_others storeId allProducts products :
  List.filter (fun p => negb (has_storeId storeId p))
    (replace_products storeId allProducts products)
  = List.filter (fun p => negb (has_storeId storeId p)) allProducts
    ++ List.filter (fun p => negb (has_storeId storeId p)) products.
Proof.
  unfold replace_products. rewrite List.filter_app. f_equal.
  apply (filter_filter_same (fun p => negb (has_storeId storeId p))).
Qed.

(** The products of the store are those of the fetched set. *)
Lemma replace_products_own storeId allProducts products :
  List.filter (has_storeId storeId) (replace_products storeId allProducts products)
  = List.filter (has_storeId storeId) products.
Proof.
  unfold replace_products. rewrite List.filter_app, filter_filter_negb. reflexivity.
Qed.

Lemma replace_products_keeps storeId allProducts products p :
  In p allProducts -> has_storeId storeId p = false ->
  In p (replace_products storeId allProducts products).
Proof.
  intros Hin Hother. unfold replace_products. apply in_or_app. left.
  apply List.filter_In. split; [assumption|]. by rewrite Hother.
Qed.

(** A later synchronisation of the same store leaves nothing of an
    earlier one whose products all carry the [storeId] of the store. *)
Lemma replace_products_supersedes storeId allProducts earlier later :
  Forall (fun p => has_storeId storeId p = true) earlier ->
  replace_products storeId (replace_products storeId allProducts earlier) later
  = replace_products storeId allProducts later.
Proof.
  intros Hown. unfold replace_products at 1 3. f_equal.
  rewrite replace_products_others. 
  assert (Hnone : List.filter (fun p => negb (has_storeId storeId p)) earlier = []).
  { induction Hown as [|x rest Hx _ IH]; simpl; [reflexivity|]. by rewrite Hx. }
  rewrite Hnone. apply app_nil_r.
Qed.


Lemma sync_all_step_sent net k store acc :
  sa_sent (sync_all_step net k store acc) = sa_sent acc ++ [products_request store].
Proof.
  unfold sync_all_step. fold (products_request store).
  destruct (net k (products_request store)) as [?|[] [?|?]]; reflexivity.
Qed.

(** Every store of the loop is sent its request, in order, whatever the
    earlier requests came to. *)
Lemma sync_all_loop_sent net k stores acc :
  sa_sent (sync_all_loop net k stores acc) = sa_sent acc ++ map products_request stores.
Proof.
  revert k acc. induction stores as [|s rest IH]; intros k acc; simpl.
  - by rewrite app_nil_r.
  - rewrite IH, sync_all_step_sent, <- app_assoc. reflexivity.
Qed.




(** Whatever a synchronisation comes to, the products of the other stores
    are in the catalog afterwards, as they were and before anything new. *)
Lemma sync_products_keeps_others net storeId st :
  let other := fun p => negb (has_storeId (Some (JStr storeId)) p) in
  exists extra,
    List.filter other (products_of (final (sync_products net storeId st)))
    = List.filter other (products_of st) ++ extra.
Proof.
  intros other. unfold sync_products.
  destruct (find_store _ _) as [store|]; simpl; [|exists []; by rewrite app_nil_r].
  destruct (net 0%nat _) as [?|[] [?|products]]; simpl;
    try (exists []; by rewrite app_nil_r).
  eexists. unfold products_of at 1; simpl. apply replace_products_others.
Qed.

(** C7.  A synchronisation of store [storeId] that fetches [products]
    leaves the products of every other store in the catalog, none removed
    and none changed: the catalog afterwards is the old products that do
    not carry [storeId], in their order, followed by the fetched ones.  No
    old product of the store remains: the products of the catalog that
    carry [storeId] are those of the fetched set that do, and they are the
    whole fetched set when every fetched product carries it.  The stores
    and the orders are not written. *)
Theorem sync_products_frame net storeId st store products :
  find_store (Some (JStr storeId)) (stores_of st) = Some store ->
  net 0%nat (products_request store) = FetchResponse true (inr products) ->
  let own := has_storeId (Some (JStr storeId)) in
  let other := fun p => negb (own p) in
  let out := sync_products net storeId st in
  code (response out) = 200%nat
  /\ products_of (final out) = List.filter other (products_of st) ++ products
  /\ (forall p, In p (products_of st) -> own p = false -> In p (products_of (final out)))
  /\ List.filter other (products_of (final out))
     = List.filter other (products_of st) ++ List.filter other products
  /\ List.filter own (products_of (final out)) = List.filter own products
  /\ (Forall (fun p => own p = true) products ->
      List.filter own (products_of (final out)) = products
      /\ List.filter other (products_of (final out)) = List.filter other (products_of st))
  /\ stores_file (final out) = stores_file st
  /\ orders_file (final out) = orders_file st.
Proof.
  intros Hstore Hfetch own other out. subst own other. cbv beta.
  assert (Hfinal : products_of (final out)
                   = replace_products (Some (JStr storeId)) (products_of st) products).
  { unfold out, sync_products. fold (stores_of st). rewrite Hstore.
    fold (products_request store). rewrite Hfetch. reflexivity. }
  assert (Hout : out = mkOutcome (response out)
                         (write_products (products_of (final out)) st)
                         [products_request store]).
  { unfold out, sync_products. fold (stores_of st). rewrite Hstore.
    fold (products_request store). rewrite Hfetch. reflexivity. }
  split; [rewrite Hout; unfold out, sync_products; fold (stores_of st); rewrite Hstore;
          fold (products_request store); by rewrite Hfetch|].
  split; [exact Hfinal|].
  split; [intros p Hp Hother; rewrite Hfinal; by apply replace_products_keeps|].
  split; [rewrite Hfinal; apply replace_products_others|].
  split; [rewrite Hfinal; apply replace_products_own|].
  split.
  - intros Hown. rewrite Hfinal. split.
    + rewrite replace_products_own. by apply filter_all_true.
    + rewrite replace_products_others.
      assert (Hnone : List.filter (fun p => negb (has_storeId (Some (JStr storeId)) p))
                        products = []).
      { clear Hfinal Hout Hfetch.
        induction Hown as [|x rest Hx _ IH]; simpl; [reflexivity|].
        rewrite Hx. exact IH. }
      rewrite Hnone. apply app_nil_r.
  - rewrite Hout. split; reflexivity.
Qed.

Lemma sync_products_frame_witness :
  let catalog := [Sample.product "s1" "old bread"; Sample.product "s2" "milk"] in
  let st := Sample.catalog_state Sample.two_stores catalog in
  let net := Sample.net_script [FetchResponse true (inr [Sample.product "s1" "new bread"])] in
  products_of (final (sync_products net "s1" st))
  = [Sample.product "s2" "milk"; Sample.product "s1" "new bread"].
Proof.
  intros catalog st net.
  destruct (sync_products_frame net "s1" st (Sample.store_seen "s1" Sample.new_year "online")
              [Sample.product "s1" "new bread"]) as (_ & Hfinal & _).
  - reflexivity.
  - reflexivity.
  - rewrite Hfinal. reflexivity.
Defined.




(** [sync-all] always answers 200, with the number of stores whose products
    it ingested; no fetch makes it stop. *)
Lemma sync_all_completes net st :
  code (response (sync_all net st)) = 200%nat
  /\ length (sent (sync_all net st)) = length (onlineStores (stores_of st)).
Proof.
  split; [reflexivity|]. unfold sync_all; simpl.
  rewrite sync_all_loop_sent. simpl. apply length_map.
Qed.

(** *** Which stores [sync-all] visits *)





(** *** Sorting *)

Section SortFacts.
Context {A : Type} (comparefn : A -> A -> option Z) (key : A -> Z) (valid : A -> Prop).
Hypothesis compare_key :
  forall x y, valid x -> valid y -> SortCompare comparefn x y = (key y - key x)%Z.

Lemma sort_insert_perm x l : Permutation (sort_insert comparefn x l) (x :: l).
Proof.
  induction l as [|y rest IH]; simpl; [reflexivity|].
  destruct (0 <? SortCompare comparefn x y)%Z; [|reflexivity].
  rewrite IH. apply perm_swap.
Qed.

Lemma Array_sort_perm l : Permutation (Array_sort comparefn l) l.
Proof.
  induction l as [|x rest IH]; simpl; [reflexivity|].
  rewrite sort_insert_perm. by apply perm_skip.
Qed.

Lemma sort_insert_sorted x l :
  valid x -> Forall valid l ->
  StronglySorted (fun a b => (key b <= key a)%Z) l -> StronglySorted (fun a b => (key b <= key a)%Z) (sort_insert comparefn x l).
Proof.
  intros Hx Hl Hsorted. induction Hsorted as [|y rest Hrest IH Hy]; simpl.
  - repeat constructor.
  - inversion Hl as [|? ? Hvy Hvrest]; subst.
    rewrite (compare_key x y Hx Hvy).
    destruct (0 <? key y - key x)%Z eqn:Hcmp.
    + apply Z.ltb_lt in Hcmp. constructor; [by apply IH|].
      rewrite sort_insert_perm. constructor; [lia|assumption].
    + apply Z.ltb_ge in Hcmp. constructor; [by constructor|].
      constructor; [lia|].
      eapply Forall_impl; [exact Hy|]. intros z Hz. simpl in Hz. lia.
Qed.

Lemma Array_sort_sorted l :
  Forall valid l -> StronglySorted (fun a b => (key b <= key a)%Z) (Array_sort comparefn l).
Proof.
  induction 1 as [|x rest Hx Hrest IH]; simpl; [constructor|].
  apply sort_insert_sorted; [assumption| |assumption].
  by rewrite Array_sort_perm.
Qed.

(** The sort is stable: the elements of one key keep their order. *)
Lemma sort_insert_stable k x l :
  valid x -> Forall valid l ->
  List.filter (fun z => (key z =? k)%Z) (sort_insert comparefn x l)
  = List.filter (fun z => (key z =? k)%Z) (x :: l).
Proof.
  intros Hx Hl. induction Hl as [|y rest Hy Hrest IH]; [reflexivity|].
  cbn [sort_insert]. rewrite (compare_key x y Hx Hy).
  destruct (0 <? key y - key x)%Z eqn:Hcmp; [|reflexivity].
  apply Z.ltb_lt in Hcmp. cbn [List.filter]. rewrite IH. cbn [List.filter].
  destruct (key y =? k)%Z eqn:Hyk, (key x =? k)%Z eqn:Hxk; try reflexivity.
  apply Z.eqb_eq in Hyk, Hxk. lia.
Qed.

Lemma Array_sort_stable k l :
  Forall valid l ->
  List.filter (fun z => (key z =? k)%Z) (Array_sort comparefn l)
  = List.filter (fun z => (key z =? k)%Z) l.
Proof.
  induction 1 as [|x rest Hx Hrest IH]; [reflexivity|].
  cbn [Array_sort fold_right]. fold (Array_sort comparefn rest).
  rewrite sort_insert_stable; [|assumption|by rewrite Array_sort_perm].
  cbn [List.filter]. by rewrite IH.
Qed.

End SortFacts.

(** *** Listing the orders *)

Lemma newest_first_key `{Builtins} (a b : Obj) :
  createdAt_valid a -> createdAt_valid b ->
  SortCompare newest_first a b = (createdAt b - createdAt a)%Z.
Proof.
  intros [ta Ha] [tb Hb]. unfold SortCompare, newest_first, createdAt.
  by rewrite Ha, Hb.
Qed.

Lemma filter_filter_andb {A} (p q : A -> bool) xs :
  List.filter q (List.filter p xs) = List.filter (fun x => p x && q x) xs.
Proof.
  induction xs as [|x rest IH]; simpl; [reflexivity|].
  destruct (p x); simpl; [destruct (q x)|]; by rewrite IH.
Qed.

Lemma filter_true {A} (xs : list A) : List.filter (fun _ => true) xs = xs.
Proof. induction xs as [|x rest IH]; simpl; [reflexivity|]. by rewrite IH. Qed.

(** The two successive filters of the handler select the orders of
    [order_selected]. *)
Lemma list_orders_selection (storeId status : option string) (orders : list Obj) :
  (let orders1 :=
     if truthy (JStr <$> storeId)
     then List.filter (has_storeId (JStr <$> storeId)) orders
     else orders in
   if truthy (JStr <$> status) && negb (strict_eq (JStr <$> status) (Some (JStr "all")))
   then List.filter (fun o => strict_eq (o !! "status") (JStr <$> status)) orders1
   else orders1)
  = List.filter (order_selected storeId status) orders.
Proof.
  cbv zeta.
  unfold order_selected, status_filter, filter_value.
  destruct storeId as [id|]; [destruct (String.eqb id "") eqn:Hid|];
    (destruct status as [wanted|];
     [destruct (String.eqb wanted "") eqn:Hw; [|destruct (String.eqb wanted "all") eqn:Ha]|]);
    cbn [fmap option_fmap option_map truthy strict_eq negb andb];
    rewrite ?Hid, ?Hw, ?Ha; cbn [negb andb];
    rewrite ?filter_filter_andb;
    first [ symmetry; apply filter_true
          | apply List.filter_ext; intros o; rewrite ?andb_true_r; reflexivity ].
Qed.

(** In [part_000] and [part_001] the listing answers with the selected
    orders, newest first, orders of one instant in their stored order, and
    writes nothing. *)
Lemma list_orders_filtered_sorted `{Builtins} v storeId status st :
  v <> MainServer ->
  Forall createdAt_valid (orders_of st) ->
  exists result,
    list_orders v storeId status st = mkOutcome (res_json (JArr (map JObj result))) st []
    /\ Permutation result (List.filter (order_selected storeId status) (orders_of st))
    /\ StronglySorted (fun a b => (createdAt b <= createdAt a)%Z) result
    /\ forall t, List.filter (fun o => (createdAt o =? t)%Z) result
                 = List.filter (fun o => (createdAt o =? t)%Z)
                     (List.filter (order_selected storeId status) (orders_of st)).
Proof.
  intros Hv Hvalid.
  set (selected := List.filter (order_selected storeId status) (orders_of st)).
  assert (Hsel : Forall createdAt_valid selected).
  { apply List.Forall_forall. intros o Ho. apply List.filter_In in Ho as [Ho _].
    revert o Ho. by apply List.Forall_forall. }
  exists (Array_sort newest_first selected).
  split; [|split; [|split]].
  - unfold list_orders. fold (orders_of st).
    pose proof (list_orders_selection storeId status (orders_of st)) as Hselection.
    cbv zeta in Hselection.
    destruct v; [congruence| |]; cbv zeta; rewrite Hselection; reflexivity.
  - apply Array_sort_perm.
  - apply (Array_sort_sorted newest_first createdAt createdAt_valid);
      [intros; by apply newest_first_key|assumption].
  - intros t. apply (Array_sort_stable newest_first createdAt createdAt_valid);
      [intros; by apply newest_first_key|assumption].
Qed.

(** Three orders created at [t1 < t2 < t3], stored in that order and listed
    without a filter, come back newest first. *)
Lemma list_orders_three `{Builtins} v st o1 o2 o3 t1 t2 t3 :
  v <> MainServer ->
  orders_of st = [o1; o2; o3] ->
  Date_new (o1 !! "createdAt") = Some t1 ->
  Date_new (o2 !! "createdAt") = Some t2 ->
  Date_new (o3 !! "createdAt") = Some t3 ->
  (t1 < t2 < t3)%Z ->
  list_orders v None None st
  = mkOutcome (res_json (JArr (map JObj [o3; o2; o1]))) st [].
Proof.
  intros Hv Horders H1 H2 H3 Hlt.
  unfold list_orders. fold (orders_of st). rewrite Horders.
  assert (Hafter : forall a b ta tb,
             Date_new (a !! "createdAt") = Some ta ->
             Date_new (b !! "createdAt") = Some tb ->
             (ta < tb)%Z ->
             forall l, sort_insert newest_first a (b :: l) = b :: sort_insert newest_first a l).
  { intros a b ta tb Ha Hb Hab l. cbn [sort_insert].
    unfold SortCompare, newest_first. rewrite Ha, Hb.
    by rewrite (proj2 (Z.ltb_lt 0 (tb - ta))) by lia. }
  assert (Hsort : Array_sort newest_first [o1; o2; o3] = [o3; o2; o1]).
  { unfold Array_sort. cbn [fold_right].
    change (sort_insert newest_first o3 []) with [o3].
    rewrite (Hafter o2 o3 t2 t3 H2 H3) by lia.
    change (sort_insert newest_first o2 []) with [o2].
    rewrite (Hafter o1 o3 t1 t3 H1 H3) by lia.
    rewrite (Hafter o1 o2 t1 t2 H1 H2) by lia. reflexivity. }
  destruct v; [congruence| |]; cbn [truthy fmap option_fmap option_map andb]; by rewrite Hsort.
Qed.

(** C4.  [GET /api/orders] of [main-server.js] neither filters nor sorts:
    three orders created at 00:00, 01:00 and 02:00 come back oldest first,
    and all three come back when the orders of store "s1" are asked for,
    though the second is an order of "s2".  The same requests to [part_001]
    give the newest first, and the two orders of "s1" only.  No variant
    writes anything. *)
Theorem list_orders_main_server_unsorted :
  let st := Sample.orders_state Sample.three_orders in
  let ids (out : Outcome) :=
    match body (response out) with
    | JArr l => map (fun o => match o with JObj r => r !! "orderId" | _ => None end) l
    | _ => []
    end in
  let first := Some (JStr "MAIN-ORD-1704067200000") in
  let second := Some (JStr "MAIN-ORD-1704070800000") in
  let third := Some (JStr "MAIN-ORD-1704074400000") in
  ids (list_orders (H := Iso.builtins) MainServer None None st) = [first; second; third]
  /\ ids (list_orders (H := Iso.builtins) MainServer (Some "s1") None st)
     = [first; second; third]
  /\ ids (list_orders (H := Iso.builtins) Part001 None None st) = [third; second; first]
  /\ ids (list_orders (H := Iso.builtins) Part001 (Some "s1") None st) = [third; first]
  /\ final (list_orders (H := Iso.builtins) MainServer None None st) = st
  /\ final (list_orders (H := Iso.builtins) Part001 (Some "s1") None st) = st.
Proof. repeat split; vm_compute; reflexivity. Qed.

(** *** Creating an order *)

Lemma order_stamp_storeId `{Builtins} clk order :
  order_stamp clk order !! "storeId" = order !! "storeId".
Proof. unfold order_stamp. by rewrite !set_field_other by discriminate. Qed.

(** An order without [storeId], [items] or [customer] is answered 400
    and nothing is written. *)
Lemma create_order_guard `{Builtins} v clk net reqBody st :
  create_order_rejects reqBody = true ->
  create_order v clk net reqBody st
  = mkOutcome (res_status 400 (error_body "Missing required fields")) st [].
Proof. intros Hrej. unfold create_order. by rewrite Hrej. Qed.

(** C9.  An order that carries the required fields and whose
    [storeId] is the [storeId] of no stored record is answered 404 with
    "Store not found"; the three files are left as they were, so no order
    is appended, and nothing is sent to any store. *)
Theorem create_order_unknown_store `{Builtins} v clk net reqBody st :
  create_order_rejects reqBody = false ->
  (forall s, In s (stores_of st) -> has_storeId (reqBody !! "storeId") s = false) ->
  let out := create_order v clk net reqBody st in
  response out = res_status 404 (error_body "Store not found")
  /\ final out = st
  /\ orders_of (final out) = orders_of st
  /\ sent out = [].
Proof.
  intros Hok Hnone out. unfold out, create_order. rewrite Hok.
  rewrite order_stamp_storeId. fold (stores_of st).
  assert (Hfind : find_store (reqBody !! "storeId") (stores_of st) = None).
  { unfold find_store. by apply find_None_iff. }
  rewrite Hfind. repeat split.
Qed.

Lemma create_order_unknown_store_witness :
  let order : Obj :=
    object_literal
      [("storeId", Some (JStr "s9"));
       ("items", Some (JArr [JStr "bread"]));
       ("customer", Some (JObj {[ "name" := JStr "Ada" ]}))] in
  let st := Sample.with_stores Sample.two_stores in
  let out := create_order (H := Iso.builtins) Part001 (Sample.at_instant Sample.new_year)
               Sample.net_down order st in
  code (response out) = 404%nat /\ orders_of (final out) = [].
Proof.
  intros order st out.
  destruct (create_order_unknown_store (H := Iso.builtins) Part001
              (Sample.at_instant Sample.new_year) Sample.net_down order st)
    as (Hresp & Hfinal & _).
  - vm_compute. reflexivity.
  - intros s [<-|[<-|[]]]; vm_compute; reflexivity.
  - fold out in Hresp, Hfinal. rewrite Hresp, Hfinal. split; reflexivity.
Defined.

(** An order for a known store is appended, with the name of the store. *)
Lemma create_order_known_store `{Builtins} v clk net reqBody st store :
  create_order_rejects reqBody = false ->
  find_store (reqBody !! "storeId") (stores_of st) = Some store ->
  let out := create_order v clk net reqBody st in
  code (response out) = 201%nat
  /\ orders_of (final out)
     = orders_of st ++ [set_field "storeName" (store !! "name") (order_stamp clk reqBody)].
Proof.
  intros Hok Hfind out. unfold out, create_order. rewrite Hok.
  rewrite order_stamp_storeId. fold (stores_of st). rewrite Hfind.
  split; reflexivity.
Qed.

(** ** Further properties of the registry *)

(** *** Strict equality *)

Lemma strict_eq_sym a b : strict_eq a b = strict_eq b a.
Proof.
  destruct a as [[]|], b as [[]|]; simpl; try reflexivity.
  - by destruct b, b0.
  - unfold Qeq_bool. apply Z.eqb_sym.
  - apply String.eqb_sym.
Qed.

(** Two values that are [===] compare alike with every third one. *)
Lemma strict_eq_trans a b x : strict_eq a b = true -> strict_eq x a = strict_eq x b.
Proof.
  intros Hab.
  destruct a as [[]|], b as [[]|]; simpl in Hab; try discriminate;
    destruct x as [[]|]; simpl; try reflexivity.
  - apply Bool.eqb_prop in Hab. by subst.
  - apply Qeq_bool_iff in Hab. apply eq_true_iff_eq. rewrite !Qeq_bool_iff.
    split; intros Hx.
    + by apply (Qeq_trans _ _ _ Hx).
    + apply (Qeq_trans _ _ _ Hx). by apply Qeq_sym.
  - apply String.eqb_eq in Hab. by subst.
Qed.

(** *** Writing one record of the stores *)

Lemma insert_as_alter {A} (x : A) i (l : list A) : <[i := x]> l = alter (fun _ => x) i l.
Proof.
  revert i. induction l as [|y rest IH]; intros [|i]; simpl; try reflexivity.
  f_equal. apply IH.
Qed.

Lemma forallb_alike {A} (f g : A -> bool) l :
  (forall x, f x = g x) -> forallb f l = forallb g l.
Proof. intros Hfg. induction l as [|x rest IH]; simpl; [reflexivity|]. by rewrite Hfg, IH. Qed.

Lemma has_storeId_alike id id' r :
  (forall x, strict_eq x id = strict_eq x id') -> has_storeId id r = has_storeId id' r.
Proof. intros Halike. unfold has_storeId. apply Halike. Qed.

(** Replacing the first record of an identity by one of the same identity
    keeps the identities distinct. *)
Lemma distinct_storeIds_alter id (f : Obj -> Obj) stores i :
  findIndex (has_storeId id) stores = Some i ->
  (forall old x, has_storeId id old = true ->
                 strict_eq x (f old !! "storeId") = strict_eq x (old !! "storeId")) ->
  distinct_storeIds (alter f i stores) = distinct_storeIds stores.
Proof.
  intros Hfind Hsame. revert i Hfind.
  induction stores as [|s rest IH]; intros i Hfind; simpl in Hfind; [discriminate|].
  destruct (has_storeId id s) eqn:Hs.
  - injection Hfind as <-.
    change (alter f 0%nat (s :: rest)) with (f s :: rest).
    cbn [distinct_storeIds]. f_equal.
    apply forallb_alike. intros r. f_equal. apply has_storeId_alike.
    intros x. by apply Hsame.
  - destruct (findIndex (has_storeId id) rest) as [i'|] eqn:Hrest; [|discriminate].
    injection Hfind as <-.
    change (alter f (S i') (s :: rest)) with (s :: alter f i' rest).
    cbn [distinct_storeIds]. rewrite (IH i' eq_refl). f_equal.
    destruct (findIndex_Some _ _ _ Hrest) as (old & Hold & Hid & _).
    clear IH Hrest. revert i' Hold.
    induction rest as [|r rest' IHr]; intros [|i'] Hold; try discriminate.
    + injection Hold as ->.
      change (alter f 0%nat (old :: rest')) with (f old :: rest').
      cbn [forallb]. f_equal. f_equal. unfold has_storeId.
      rewrite (strict_eq_sym (f old !! "storeId")), (strict_eq_sym (old !! "storeId")).
      by apply Hsame.
    + change (alter f (S i') (r :: rest')) with (r :: alter f i' rest').
      cbn [forallb]. f_equal. by apply IHr.
Qed.

(** Pushing a record of a new identity keeps the identities distinct. *)
Lemma distinct_storeIds_push stores s :
  (forall r, In r stores -> has_storeId (s !! "storeId") r = false) ->
  distinct_storeIds (stores ++ [s]) = distinct_storeIds stores.
Proof.
  induction stores as [|r rest IH]; intros Hnew; simpl; [reflexivity|].
  rewrite IH by (intros r' Hr'; apply Hnew; by right).
  f_equal. rewrite forallb_app. simpl.
  assert (Hr : has_storeId (r !! "storeId") s = false).
  { unfold has_storeId. rewrite strict_eq_sym. apply (Hnew r). by left. }
  rewrite Hr. simpl. by rewrite andb_true_r.
Qed.

Lemma spread_storeId_alike (old new : Obj) x :
  has_storeId (new !! "storeId") old = true ->
  strict_eq x (spread old new !! "storeId") = strict_eq x (old !! "storeId").
Proof.
  intros Hid. destruct (new !! "storeId") as [v|] eqn:Hnew.
  - rewrite (spread_new old new "storeId" v Hnew). symmetry. by apply strict_eq_trans.
  - by rewrite (spread_old old new "storeId" Hnew).
Qed.

(** X4.  Registration keeps the identities of the stores distinct: when no
    two stored records have the same [storeId], none have after a
    [register] request, whatever the variant and the body of the request
    (a body without [storeId] included). *)
Theorem register_keeps_storeIds_distinct `{Builtins} v clk net reqBody st :
  distinct_storeIds (stores_of st) = true ->
  distinct_storeIds (stores_of (final (register v clk net reqBody st))) = true.
Proof.
  intros Hdistinct.
  destruct (register_rejects v reqBody) eqn:Hguard.
  - unfold register. by rewrite Hguard.
  - destruct (register_final v clk net reqBody st Hguard) as [-> _].
    unfold register_stores.
    destruct (findIndex _ (stores_of st)) as [i|] eqn:Hfind.
    + rewrite (distinct_storeIds_alter _ _ _ _ Hfind); [exact Hdistinct|].
      intros old x Hold. by apply spread_storeId_alike.
    + rewrite distinct_storeIds_push; [exact Hdistinct|].
      by apply findIndex_None.
Qed.

Lemma register_keeps_storeIds_distinct_witness :
  distinct_storeIds
    (stores_of (final (register (H := Iso.builtins) Part001
                         (Sample.at_instant Sample.new_year) Sample.net_down
                         (Sample.registration "s2") (Sample.with_stores Sample.two_stores))))
  = true.
Proof.
  apply (register_keeps_storeIds_distinct (H := Iso.builtins)). reflexivity.
Defined.

(** X5.  Manual addition keeps the identities of the stores distinct, in
    the same way. *)
Theorem manual_add_keeps_storeIds_distinct `{Builtins} v clk reqBody st :
  distinct_storeIds (stores_of st) = true ->
  distinct_storeIds (stores_of (final (manual_add v clk reqBody st))) = true.
Proof.
  intros Hdistinct. unfold manual_add.
  destruct (manual_add_rejects v reqBody); [exact Hdistinct|].
  unfold stores_of at 1; simpl. fold (stores_of st). unfold manual_add_stores.
  destruct (findIndex _ (stores_of st)) as [i|] eqn:Hfind.
  - rewrite insert_as_alter, (distinct_storeIds_alter _ _ _ _ Hfind); [exact Hdistinct|].
    intros old x Hold. rewrite manual_add_record_storeId.
    symmetry. by apply strict_eq_trans.
  - rewrite distinct_storeIds_push; [exact Hdistinct|].
    rewrite manual_add_record_storeId. by apply findIndex_None.
Qed.

Lemma manual_add_keeps_storeIds_distinct_witness :
  distinct_storeIds
    (stores_of (final (manual_add (H := Iso.builtins) MainServer
                         (Sample.at_instant Sample.new_year)
                         (Sample.registration "s3") (Sample.with_stores Sample.two_stores))))
  = true.
Proof.
  apply (manual_add_keeps_storeIds_distinct (H := Iso.builtins)). reflexivity.
Defined.

(** The place that an upsert writes, and the places it leaves alone. *)
Lemma upsert_alter_lookup (f : Obj -> Obj) id stores i old :
  findIndex (has_storeId id) stores = Some i ->
  stores !! i = Some old ->
  alter f i stores !! upsert_position id stores = Some (f old)
  /\ (forall j, j <> upsert_position id stores -> alter f i stores !! j = stores !! j)
  /\ length (alter f i stores) = Nat.max (length stores) (S (upsert_position id stores)).
Proof.
  intros Hfind Hold. unfold upsert_position. rewrite Hfind.
  split; [|split].
  - rewrite list_lookup_alter, Hold. by rewrite decide_True.
  - intros j Hj. by apply list_lookup_alter_ne.
  - rewrite length_alter. apply lookup_lt_Some in Hold. lia.
Qed.

Lemma upsert_push_lookup id (stores : list Obj) (new : Obj) :
  findIndex (has_storeId id) stores = None ->
  (stores ++ [new]) !! upsert_position id stores = Some new
  /\ (forall j, j <> upsert_position id stores -> (stores ++ [new]) !! j = stores !! j)
  /\ length (stores ++ [new]) = Nat.max (length stores) (S (upsert_position id stores)).
Proof.
  intros Hfind. unfold upsert_position. rewrite Hfind.
  split; [|split].
  - rewrite lookup_app_r by lia. by rewrite Nat.sub_diag.
  - intros j Hj. destruct (decide (j < length stores)%nat) as [Hlt|Hge].
    + by apply lookup_app_l.
    + rewrite lookup_app_r by lia.
      rewrite (lookup_ge_None_2 stores j) by lia.
      destruct (j - length stores)%nat as [|n] eqn:Hn; [lia|reflexivity].
  - rewrite length_app. simpl. lia.
Qed.

(** The record that a registration stores, at its place. *)
Lemma register_record `{Builtins} v clk net reqBody st :
  register_rejects v reqBody = false ->
  let stores := stores_of st in
  let stores' := stores_of (final (register v clk net reqBody st)) in
  let k := upsert_position (reqBody !! "storeId") stores in
  (forall j, j <> k -> stores' !! j = stores !! j)
  /\ length stores' = Nat.max (length stores) (S k)
  /\ exists r : Obj,
       stores' !! k = Some r
       /\ r !! "lastSeen" = iso_now (clk 0%nat)
       /\ r !! "status" = Some (JStr "online")
       /\ forall key x, ~ In key (register_fields v) -> reqBody !! key = Some x ->
                        r !! key = Some x.
Proof.
  intros Hguard stores stores' k.
  assert (Hfinal : stores' = register_stores stores (register_stamp v clk reqBody))
    by apply (register_final v clk net reqBody st Hguard).
  unfold register_stores in Hfinal. rewrite register_stamp_storeId in Hfinal.
  destruct (findIndex (has_storeId (reqBody !! "storeId")) stores) as [i|] eqn:Hfind.
  - destruct (findIndex_Some _ _ _ Hfind) as (old & Hold & _).
    destruct (upsert_alter_lookup (fun old => spread old (register_stamp v clk reqBody))
                _ _ _ _ Hfind Hold) as (Hk & Hother & Hlen).
    rewrite Hfinal. split; [exact Hother|]. split; [exact Hlen|].
    eexists. split; [exact Hk|]. split; [|split].
    + apply spread_new, register_stamp_lastSeen.
    + apply spread_new, register_stamp_status.
    + intros key x Hkey Hx. apply spread_new. by rewrite register_stamp_other.
  - destruct (upsert_push_lookup _ stores (register_stamp v clk reqBody) Hfind)
      as (Hk & Hother & Hlen).
    rewrite Hfinal. split; [exact Hother|]. split; [exact Hlen|].
    eexists. split; [exact Hk|]. split; [|split].
    + apply register_stamp_lastSeen.
    + apply register_stamp_status.
    + intros key x Hkey Hx. by rewrite register_stamp_other.
Qed.

(** X1.  A registration that passes the guard writes one record of the
    stores and no other: the first record with the [storeId] of the request,
    or a new record at the end when there is none.  Every other record is
    as it was, the collection grows by at most that record, the written
    record has the [lastSeen] of the request, the status "online" and every
    field of the body that [register] does not assign itself, and the
    orders and the products are not written. *)
Theorem register_writes_one_record `{Builtins} v clk net reqBody st :
  register_rejects v reqBody = false ->
  let stores := stores_of st in
  let out := register v clk net reqBody st in
  let k := upsert_position (reqBody !! "storeId") stores in
  (forall j, j <> k -> stores_of (final out) !! j = stores !! j)
  /\ length (stores_of (final out)) = Nat.max (length stores) (S k)
  /\ (exists r : Obj,
        stores_of (final out) !! k = Some r
        /\ r !! "lastSeen" = iso_now (clk 0%nat)
        /\ r !! "status" = Some (JStr "online")
        /\ forall key x, ~ In key (register_fields v) -> reqBody !! key = Some x ->
                         r !! key = Some x)
  /\ orders_file (final out) = orders_file st
  /\ products_file (final out) = products_file st.
Proof.
  intros Hguard stores out k.
  destruct (register_record v clk net reqBody st Hguard) as (Hother & Hlen & Hrec).
  split; [exact Hother|]. split; [exact Hlen|]. split; [exact Hrec|].
  unfold out, register. rewrite Hguard. destruct v; split; reflexivity.
Qed.

Lemma register_writes_one_record_witness :
  let st := Sample.with_stores Sample.two_stores in
  let out := register (H := Iso.builtins) Part000
               (Sample.at_instant (Sample.new_year + Sample.one_hour)) Sample.net_down
               (Sample.registration "s2") st in
  stores_of (final out) !! 0%nat = Some (Sample.store_seen "s1" Sample.new_year "online")
  /\ length (stores_of (final out)) = 2%nat.
Proof.
  intros st out.
  destruct (register_writes_one_record (H := Iso.builtins) Part000
              (Sample.at_instant (Sample.new_year + Sample.one_hour)) Sample.net_down
              (Sample.registration "s2") st) as (Hother & Hlen & _).
  - vm_compute. reflexivity.
  - split.
    + etransitivity; [apply (Hother 0%nat); vm_compute; discriminate|reflexivity].
    + exact Hlen.
Defined.

(** X2.  The guard of [register] in [main-server.js] and [part_000]: a
    request whose [storeId] or [name] is missing or falsy (or, in
    [part_000], whose [url] is) is answered 400, writes nothing and sends
    nothing; every other request is answered 200. *)
Theorem register_validation `{Builtins} v clk net reqBody st :
  v <> Part001 ->
  let missing :=
    truthy (reqBody !! "storeId") = false \/ truthy (reqBody !! "name") = false
    \/ (v = Part000 /\ truthy (reqBody !! "url") = false) in
  (missing ->
   register v clk net reqBody st
   = mkOutcome (res_status 400 (error_body (register_error v))) st [])
  /\ (~ missing -> code (response (register v clk net reqBody st)) = 200%nat).
Proof.
  intros Hv missing. unfold register.
  destruct v; [| |congruence]; simpl.
  - split.
    + intros [-> | [-> | [Hv' _]]]; [reflexivity|by rewrite orb_true_r|discriminate].
    + intros Hpresent.
      destruct (truthy (reqBody !! "storeId")) eqn:Hid;
        [|exfalso; apply Hpresent; by left].
      destruct (truthy (reqBody !! "name")) eqn:Hname;
        [reflexivity|exfalso; apply Hpresent; right; by left].
  - split.
    + intros [-> | [-> | [_ ->]]]; simpl; rewrite ?orb_true_r; reflexivity.
    + intros Hpresent.
      destruct (truthy (reqBody !! "storeId")) eqn:Hid;
        [|exfalso; apply Hpresent; by left].
      destruct (truthy (reqBody !! "name")) eqn:Hname;
        [|exfalso; apply Hpresent; right; by left].
      destruct (truthy (reqBody !! "url")) eqn:Hurl;
        [reflexivity|exfalso; apply Hpresent; right; right; by split].
Qed.

Lemma register_validation_witness :
  let noUrl : Obj := delete "url" (Sample.registration "s1") in
  register (H := Iso.builtins) Part000 (Sample.at_instant Sample.new_year) Sample.net_down
    noUrl Sample.empty_state
  = mkOutcome (res_status 400 (error_body (register_error Part000))) Sample.empty_state []
  /\ code (response (register (H := Iso.builtins) MainServer
                       (Sample.at_instant Sample.new_year) Sample.net_down
                       noUrl Sample.empty_state)) = 200%nat.
Proof.
  intros noUrl. split.
  - apply (register_validation (H := Iso.builtins) Part000); [discriminate|].
    right. right. split; reflexivity.
  - apply (register_validation (H := Iso.builtins) MainServer); [discriminate|].
    intros [Hid | [Hname | [Hv _]]]; discriminate.
Defined.

Lemma manual_add_record_fields `{Builtins} v clk reqBody :
  let fresh := manual_add_record v clk reqBody in
  fresh !! "name" = reqBody !! "name"
  /\ fresh !! "location" = js_or (reqBody !! "location") (Some (JStr "Unknown Location"))
  /\ fresh !! "url"
     = match v with
       | MainServer => js_or (reqBody !! "url") (Some (JStr "http://localhost:3000"))
       | _ => reqBody !! "url"
       end
  /\ fresh !! "lastSeen" = iso_now (clk 0%nat)
  /\ fresh !! "status" = Some (JStr "online").
Proof.
  unfold manual_add_record. cbn [object_literal app].
  repeat split; rewrite ?set_field_other by discriminate; try apply set_field_same.
  all: destruct v; cbn [object_literal app];
    rewrite ?set_field_other by discriminate; apply set_field_same.
Qed.

(** X3.  What [manual-add] does with a request.  A request whose [storeId]
    or [name] is falsy (or [url], in [part_000] and [part_001]) is answered
    400 and writes nothing.  Any other request is answered 200 and writes
    one record and no other, at the place of the first record with its
    [storeId] or at the end: the record has the [name] of the request, its
    [location] or "Unknown Location" when the request has none, its [url]
    (in [main-server.js], "http://localhost:3000" when the request has
    none), the [lastSeen] of the request and the status "online". *)
Theorem manual_add_outcome `{Builtins} v clk reqBody st :
  let out := manual_add v clk reqBody st in
  let stores := stores_of st in
  let k := upsert_position (reqBody !! "storeId") stores in
  if manual_add_rejects v reqBody
  then code (response out) = 400%nat /\ final out = st /\ sent out = []
  else code (response out) = 200%nat
       /\ (forall j, j <> k -> stores_of (final out) !! j = stores !! j)
       /\ length (stores_of (final out)) = Nat.max (length stores) (S k)
       /\ (exists fresh : Obj,
             stores_of (final out) !! k = Some fresh
             /\ fresh !! "storeId" = reqBody !! "storeId"
             /\ fresh !! "name" = reqBody !! "name"
             /\ fresh !! "location"
                = js_or (reqBody !! "location") (Some (JStr "Unknown Location"))
             /\ fresh !! "url"
                = match v with
                  | MainServer =>
                      js_or (reqBody !! "url") (Some (JStr "http://localhost:3000"))
                  | _ => reqBody !! "url"
                  end
             /\ fresh !! "lastSeen" = iso_now (clk 0%nat)
             /\ fresh !! "status" = Some (JStr "online"))
       /\ orders_file (final out) = orders_file st
       /\ products_file (final out) = products_file st.
Proof.
  intros out stores k. unfold out, manual_add.
  destruct (manual_add_rejects v reqBody); [repeat split|].
  split; [reflexivity|].
  unfold stores_of at 1 2 3; simpl. fold (stores_of st). fold stores.
  destruct (manual_add_record_fields v clk reqBody) as (Hname & Hloc & Hurl & Hseen & Hstatus).
  pose proof (manual_add_record_storeId v clk reqBody) as Hid.
  unfold manual_add_stores.
  destruct (findIndex (has_storeId (reqBody !! "storeId")) stores) as [i|] eqn:Hfind.
  - destruct (findIndex_Some _ _ _ Hfind) as (old & Hold & _).
    rewrite insert_as_alter.
    destruct (upsert_alter_lookup (fun _ => manual_add_record v clk reqBody)
                _ _ _ _ Hfind Hold) as (Hk & Hother & Hlen).
    split; [exact Hother|]. split; [exact Hlen|].
    split; [|split; reflexivity].
    eexists. split; [exact Hk|]. repeat split; assumption.
  - destruct (upsert_push_lookup _ stores (manual_add_record v clk reqBody) Hfind)
      as (Hk & Hother & Hlen).
    split; [exact Hother|]. split; [exact Hlen|].
    split; [|split; reflexivity].
    eexists. split; [exact Hk|]. repeat split; assumption.
Qed.

(** *** Listing the stores *)





(** X7.  A store that has just registered is online for as long as its
    threshold: when the runtime reads back the instant that it wrote in
    [lastSeen], a [GET /api/stores] gives the record of the store the
    status "online" when less than the threshold has passed since the
    registration, and "offline" from the threshold on. *)
Theorem register_then_list `{Builtins} v clk net reqBody st clk' :
  register_rejects v reqBody = false ->
  Date_parse (toISOString (clk 0%nat)) = Some (clk 0%nat) ->
  let registered := final (register v clk net reqBody st) in
  let k := upsert_position (reqBody !! "storeId") (stores_of st) in
  let gap := (clk' 0%nat - clk 0%nat)%Z in
  exists r : Obj,
    stores_of (final (list_stores v clk' registered)) !! k = Some r
    /\ r !! "status"
       = Some (JStr (if (gap <? threshold_minutes v * minute)%Z then "online" else "offline")).
Proof.
  intros Hguard Hparse registered k gap.
  destruct (register_record v clk net reqBody st Hguard) as (_ & _ & r & Hr & Hseen & _).
  exists (refresh_status v (clk' 0%nat) r).
  split; [by apply list_stores_lookup|].
  rewrite refresh_status_status.
  rewrite (live_valid v (clk' 0%nat) r (clk 0%nat)); [reflexivity|].
  rewrite Hseen. exact Hparse.
Qed.

Lemma register_then_list_witness :
  let registered :=
    final (register (H := Iso.builtins) Part001 (Sample.at_instant Sample.new_year)
             Sample.net_down (Sample.registration "s1") Sample.empty_state) in
  exists r : Obj,
    stores_of (final (list_stores (H := Iso.builtins) Part001
                        (Sample.at_instant (Sample.new_year + 5 * minute)) registered))
      !! 0%nat = Some r
    /\ r !! "status" = Some (JStr "offline").
Proof.
  intros registered.
  destruct (register_then_list (H := Iso.builtins) Part001
              (Sample.at_instant Sample.new_year) Sample.net_down
              (Sample.registration "s1") Sample.empty_state
              (Sample.at_instant (Sample.new_year + 5 * minute)))
    as (r & Hr & Hstatus).
  - reflexivity.
  - vm_compute. reflexivity.
  - exists r. split; [exact Hr|]. rewrite Hstatus. vm_compute. reflexivity.
Defined.

(** *** The debug view of the stores *)

Lemma debug_store_status `{Builtins} v now store :
  debug_store v now store !! "status"
  = Some (JStr (if live v now store then "online" else "offline")).
Proof.
  unfold debug_store, live.
  destruct v; rewrite ?set_field_other by discriminate; apply set_field_same.
Qed.

Lemma debug_store_other `{Builtins} v now store key :
  key <> "status" -> key <> "minutesSinceLastSeen" -> key <> "server" ->
  debug_store v now store !! key = store !! key.
Proof.
  intros Hs Hm Hv. unfold debug_store.
  destruct v; rewrite ?set_field_other by congruence; reflexivity.
Qed.

Lemma debug_online_count `{Builtins} v now stores :
  length (List.filter (fun s => strict_eq (s !! "status") (Some (JStr "online")))
            (map (debug_store v now) stores))
  = length (onlineStores (map (refresh_status v now) stores)).
Proof.
  unfold onlineStores. induction stores as [|s rest IH]; simpl; [reflexivity|].
  rewrite debug_store_status, refresh_status_status.
  destruct (live v now s); simpl; by rewrite IH.
Qed.

(** X8.  [GET /api/debug/stores] shows what [GET /api/stores] would write
    and writes nothing.  With a clock that stands still during the request,
    every store is shown with the status that the listing would give it at
    that instant and with every field of its own, [totalStores] is the
    number of stores, [onlineStores] is the number of stores that the
    listing would leave "online", and the three files are as they were. *)
Theorem debug_stores_shows_listing `{Builtins} v clk replitUrl st :
  (forall k, clk k = clk 0%nat) ->
  let out := debug_stores v clk replitUrl st in
  let listing := stores_of (final (list_stores v clk st)) in
  final out = st
  /\ sent out = []
  /\ code (response out) = 200%nat
  /\ exists (shown : list Obj) (b : Obj),
       body (response out) = JObj b
       /\ b !! "stores" = Some (JArr (map JObj shown))
       /\ b !! "totalStores" = Some (jnat (length (stores_of st)))
       /\ b !! "onlineStores" = Some (jnat (length (onlineStores listing)))
       /\ forall i store,
            stores_of st !! i = Some store ->
            exists (d l : Obj),
              shown !! i = Some d /\ listing !! i = Some l
              /\ d !! "status" = l !! "status"
              /\ forall key, key <> "status" -> key <> "minutesSinceLastSeen" ->
                             key <> "server" -> d !! key = store !! key.
Proof.
  intros Hclk out listing.
  split; [reflexivity|]. split; [reflexivity|]. split; [reflexivity|].
  assert (Hshown : imap (fun k store => debug_store v (clk k) store) (stores_of st)
                   = map (debug_store v (clk 0%nat)) (stores_of st)).
  { rewrite <- (imap_const (debug_store v (clk 0%nat))).
    apply imap_ext. intros k x _. simpl. by rewrite Hclk. }
  exists (map (debug_store v (clk 0%nat)) (stores_of st)).
  unfold out, debug_stores. fold (stores_of st). cbv zeta. rewrite Hshown.
  rewrite debug_online_count, !length_map.
  assert (Hlisting : map (refresh_status v (clk 0%nat)) (stores_of st) = listing)
    by reflexivity.
  rewrite Hlisting.
  eexists. split; [reflexivity|].
  split; [|split; [|split]].
  - destruct v; cbn [object_literal];
      rewrite ?set_field_other by discriminate; apply set_field_same.
  - destruct v; cbn [object_literal];
      rewrite ?set_field_other by discriminate; apply set_field_same.
  - destruct v; cbn [object_literal];
      rewrite ?set_field_other by discriminate; apply set_field_same.
  - intros i store Hi.
    exists (debug_store v (clk 0%nat) store), (refresh_status v (clk 0%nat) store).
    split; [by rewrite list_lookup_fmap, Hi|].
    split; [rewrite <- Hlisting; by rewrite list_lookup_fmap, Hi|].
    split; [by rewrite debug_store_status, refresh_status_status|].
    intros key Hs Hm Hv. by apply debug_store_other.
Qed.

Lemma debug_stores_shows_listing_witness :
  let st := Sample.with_stores Sample.two_stores in
  let out := debug_stores (H := Iso.builtins) Part001
               (Sample.at_instant (Sample.new_year + Sample.one_hour)) None st in
  final out = st
  /\ exists b : Obj, body (response out) = JObj b /\ b !! "onlineStores" = Some (jnat 0).
Proof.
  intros st out.
  destruct (debug_stores_shows_listing (H := Iso.builtins) Part001
              (Sample.at_instant (Sample.new_year + Sample.one_hour)) None st)
    as (Hfinal & _ & _ & shown & b & Hbody & _ & _ & Honline & _).
  - reflexivity.
  - split; [exact Hfinal|]. exists b. split; [exact Hbody|].
    rewrite Honline. vm_compute. reflexivity.
Defined.

(** ** Further properties of the catalog *)

(** X9.  A synchronisation that is not answered 200 writes nothing.  When
    no store has the [storeId] of the route, the answer is 404 and no
    request is sent; when the fetch of the store throws, or its response
    is not [ok], or [json()] rejects its body, or the body cannot be spread,
    the answer is 500 after the one request, and the three files are as
    they were. *)
Theorem sync_products_failure_writes_nothing net storeId st :
  let out := sync_products net storeId st in
  (find_store (Some (JStr storeId)) (stores_of st) = None ->
   out = mkOutcome (res_status 404 (error_body "Store not found")) st [])
  /\ (forall store,
        find_store (Some (JStr storeId)) (stores_of st) = Some store ->
        fetch_fails (net 0%nat (products_request store)) ->
        code (response out) = 500%nat /\ final out = st
        /\ sent out = [products_request store])
  /\ (code (response out) = 200%nat \/ final out = st).
Proof.
  intros out. unfold out, sync_products. fold (stores_of st).
  destruct (find_store (Some (JStr storeId)) (stores_of st)) as [store|].
  - fold (products_request store).
    split; [intros Hnone; discriminate Hnone|]. split.
    + intros store' [= <-] Hfails.
      destruct (net 0%nat (products_request store)) as [?|[] [?|?]];
        simpl in Hfails; try (repeat split; fail). destruct Hfails.
    + destruct (net 0%nat (products_request store)) as [?|[] [?|?]];
        simpl; auto.
  - split; [reflexivity|]. split; [intros store Hsome; discriminate Hsome|]. by right.
Qed.

(** X10.  A synchronisation of a store supersedes the one before: when
    every product of the first fetch carries the [storeId] of the store,
    the catalog after a second synchronisation is the one that the second
    alone would have given, nothing of the first fetch being left. *)
Theorem sync_products_twice net1 net2 storeId st store earlier later :
  find_store (Some (JStr storeId)) (stores_of st) = Some store ->
  net1 0%nat (products_request store) = FetchResponse true (inr earlier) ->
  net2 0%nat (products_request store) = FetchResponse true (inr later) ->
  Forall (fun p => has_storeId (Some (JStr storeId)) p = true) earlier ->
  products_of (final (sync_products net2 storeId (final (sync_products net1 storeId st))))
  = products_of (final (sync_products net2 storeId st))
  /\ products_of (final (sync_products net2 storeId st))
     = List.filter (fun p => negb (has_storeId (Some (JStr storeId)) p)) (products_of st)
       ++ later.
Proof.
  intros Hstore H1 H2 Hown.
  assert (Hsync : forall net st' products,
             find_store (Some (JStr storeId)) (stores_of st') = Some store ->
             net 0%nat (products_request store) = FetchResponse true (inr products) ->
             final (sync_products net storeId st')
             = write_products
                 (replace_products (Some (JStr storeId)) (products_of st') products) st').
  { intros net st' products Hs Hn. unfold sync_products. fold (stores_of st').
    rewrite Hs. fold (products_request store). by rewrite Hn. }
  rewrite (Hsync net1 st earlier Hstore H1).
  rewrite (Hsync net2 st later Hstore H2).
  rewrite (Hsync net2 _ later) by (try exact Hstore; exact H2).
  unfold products_of at 1 3 4; simpl. fold (products_of st).
  split; [by apply replace_products_supersedes|reflexivity].
Qed.

Lemma sync_products_twice_witness :
  let st := Sample.catalog_state Sample.two_stores [Sample.product "s2" "milk"] in
  let net1 := Sample.net_script [FetchResponse true (inr [Sample.product "s1" "old bread"])] in
  let net2 := Sample.net_script [FetchResponse true (inr [Sample.product "s1" "new bread"])] in
  products_of (final (sync_products net2 "s1" (final (sync_products net1 "s1" st))))
  = [Sample.product "s2" "milk"; Sample.product "s1" "new bread"].
Proof.
  intros st net1 net2.
  destruct (sync_products_twice net1 net2 "s1" st
              (Sample.store_seen "s1" Sample.new_year "online")
              [Sample.product "s1" "old bread"] [Sample.product "s1" "new bread"])
    as [Htwice Honce].
  - reflexivity.
  - reflexivity.
  - reflexivity.
  - repeat constructor.
  - rewrite Htwice, Honce. reflexivity.
Defined.



(** X12.  [sync-all] does for a store what the synchronisation of that
    store does: when one store is online, its [storeId] is a string and
    it is the first store with that [storeId], the two requests send the
    same request and leave the same files, whatever the fetch comes to. *)
Theorem sync_all_one_store net st store storeId :
  onlineStores (stores_of st) = [store] ->
  store !! "storeId" = Some (JStr storeId) ->
  find_store (Some (JStr storeId)) (stores_of st) = Some store ->
  final (sync_all net st) = final (sync_products net storeId st)
  /\ sent (sync_all net st) = sent (sync_products net storeId st).
Proof.
  intros Honline Hid Hfind.
  unfold sync_all, sync_products. fold (stores_of st). rewrite Honline, Hfind.
  cbn [sync_all_loop]. unfold sync_all_step. rewrite Hid.
  destruct (net 0%nat (HttpGet (store !! "url") "/api/products")) as [?|[] [?|?]];
    split; reflexivity.
Qed.

Lemma sync_all_one_store_witness :
  let store := Sample.store_seen "s1" Sample.new_year "online" in
  let st := Sample.catalog_state [store] [Sample.product "s1" "old bread"] in
  let net := Sample.net_script [FetchResponse true (inr [Sample.product "s1" "new bread"])] in
  final (sync_all net st) = final (sync_products net "s1" st).
Proof.
  intros store st net.
  apply (sync_all_one_store net st store "s1"); reflexivity.
Defined.

(** ** Further properties of the order relay *)

Lemma order_stamp_fields `{Builtins} clk reqBody :
  let order := order_stamp clk reqBody in
  order !! "orderId" = Some (JStr ("MAIN-ORD-" ++ pretty (clk 0%nat))%string)
  /\ order !! "createdAt" = iso_now (clk 1%nat)
  /\ order !! "status" = Some (JStr "pending")
  /\ forall key, key <> "orderId" -> key <> "createdAt" -> key <> "status" ->
                 order !! key = reqBody !! key.
Proof.
  unfold order_stamp. repeat split.
  - rewrite !set_field_other by discriminate. apply set_field_same.
  - rewrite set_field_other by discriminate. apply set_field_same.
  - apply set_field_same.
  - intros key H1 H2 H3. by rewrite !set_field_other by congruence.
Qed.

(** X13.  An order for a known store is appended as the server stamps it.
    The request is answered 201 and the stored order, the last of the
    collection, has the [orderId] made of the instant of the request, its
    [createdAt], the status "pending" and the [storeName] of the store,
    whatever the body of the request gave for these four fields, and every
    other field of the body.  The earlier orders, the stores and the
    products are as they were; [part_001] posts the stored order to the
    store, and the other variants send nothing. *)
Theorem create_order_appends `{Builtins} v clk net reqBody st store :
  create_order_rejects reqBody = false ->
  find_store (reqBody !! "storeId") (stores_of st) = Some store ->
  let out := create_order v clk net reqBody st in
  exists order : Obj,
    response out
    = res_status 201 (JObj (object_literal
        [("success", Some (JBool true)); ("order", Some (JObj order))]))
    /\ orders_of (final out) = orders_of st ++ [order]
    /\ order !! "orderId" = Some (JStr ("MAIN-ORD-" ++ pretty (clk 0%nat))%string)
    /\ order !! "createdAt" = iso_now (clk 1%nat)
    /\ order !! "status" = Some (JStr "pending")
    /\ order !! "storeName" = store !! "name"
    /\ (forall key, ~ In key order_fields -> order !! key = reqBody !! key)
    /\ sent out = match v with
                  | Part001 => [HttpPost (store !! "url") "/api/orders" order]
                  | _ => []
                  end
    /\ stores_file (final out) = stores_file st
    /\ products_file (final out) = products_file st.
Proof.
  intros Hguard Hfind out.
  exists (set_field "storeName" (store !! "name") (order_stamp clk reqBody)).
  destruct (order_stamp_fields clk reqBody) as (Hid & Hcreated & Hstatus & Hother).
  unfold out, create_order. rewrite Hguard, order_stamp_storeId.
  fold (stores_of st). rewrite Hfind. cbn [response final sent].
  split; [reflexivity|]. split; [reflexivity|].
  rewrite !set_field_other by discriminate. rewrite set_field_same.
  split; [exact Hid|]. split; [exact Hcreated|]. split; [exact Hstatus|].
  split; [reflexivity|]. split; [|repeat split].
  intros key Hkey. simpl in Hkey.
  rewrite set_field_other by (intros <-; tauto).
  apply Hother; intros ->; tauto.
Qed.

Lemma create_order_appends_witness :
  let st := Sample.with_stores Sample.two_stores in
  let out := create_order (H := Iso.builtins) Part001 (Sample.at_instant Sample.new_year)
               Sample.net_down (Sample.order_request "s2") st in
  Sample.order_request "s2" !! "status" = Some (JStr "delivered")
  /\ exists order : Obj,
       orders_of (final out) = [order]
       /\ order !! "status" = Some (JStr "pending")
       /\ order !! "storeName" = Some (JStr "Store s2").
Proof.
  intros st out. split; [vm_compute; reflexivity|].
  destruct (create_order_appends (H := Iso.builtins) Part001
              (Sample.at_instant Sample.new_year) Sample.net_down
              (Sample.order_request "s2") st
              (Sample.store_seen "s2" Sample.new_year "online"))
    as (order & _ & Horders & _ & _ & Hstatus & Hname & _).
  - vm_compute. reflexivity.
  - vm_compute. reflexivity.
  - exists order. split; [exact Horders|]. split; [exact Hstatus|].
    rewrite Hname. vm_compute. reflexivity.
Defined.

(** *** Updating the status of an order *)

Lemma patch_order_fields `{Builtins} clk reqBody order :
  let patched := patch_order clk reqBody order in
  patched !! "status" = reqBody !! "status"
  /\ patched !! "notes" = js_or (reqBody !! "notes") (order !! "notes")
  /\ patched !! "updatedAt" = iso_now (clk 0%nat)
  /\ forall key, ~ In key patch_fields -> patched !! key = order !! key.
Proof.
  unfold patch_order. repeat split.
  - rewrite !set_field_other by discriminate. apply set_field_same.
  - rewrite set_field_other by discriminate. rewrite set_field_same.
    by rewrite set_field_other by discriminate.
  - apply set_field_same.
  - intros key Hkey. simpl in Hkey. by rewrite !set_field_other by (intros <-; tauto).
Qed.

(** X14.  The update of the status of an order that is not in the
    collection is answered 404 with "Order not found", and the three files
    are as they were. *)
Theorem update_order_status_unknown `{Builtins} clk orderId reqBody st :
  (forall o, In o (orders_of st) -> has_orderId orderId o = false) ->
  update_order_status clk orderId reqBody st
  = mkOutcome (res_status 404 (error_body "Order not found")) st [].
Proof.
  intros Hnone. unfold update_order_status. fold (orders_of st).
  assert (Hfind : findIndex (has_orderId orderId) (orders_of st) = None)
    by by apply findIndex_None.
  by rewrite Hfind.
Qed.

Lemma update_order_status_unknown_witness :
  let st := Sample.orders_state Sample.three_orders in
  final (update_order_status (H := Iso.builtins) (Sample.at_instant Sample.new_year)
           "MAIN-ORD-1" (object_literal [("status", Some (JStr "done"))]) st)
  = st.
Proof.
  intros st.
  rewrite (update_order_status_unknown (H := Iso.builtins)); [reflexivity|].
  intros o [<-|[<-|[<-|[]]]]; vm_compute; reflexivity.
Defined.

(** X15.  The update of the status of a known order changes the first
    order with that [orderId] and no other.  Its [status] becomes the one
    of the request, whatever it is, and the order has no [status] left when
    the request has none; its [notes] become those of the request when
    they are truthy and stay as they were otherwise; [updatedAt] is the instant of
    the request; every other field of the order is kept, its [orderId]
    too.  The other orders, the stores and the products are as they
    were, and the response carries the updated order. *)
Theorem update_order_status_known `{Builtins} clk orderId reqBody st i old :
  findIndex (has_orderId orderId) (orders_of st) = Some i ->
  orders_of st !! i = Some old ->
  let out := update_order_status clk orderId reqBody st in
  exists patched : Obj,
    response out
    = res_json (JObj (object_literal
        [("success", Some (JBool true)); ("order", Some (JObj patched))]))
    /\ orders_of (final out) !! i = Some patched
    /\ (forall j, j <> i -> orders_of (final out) !! j = orders_of st !! j)
    /\ length (orders_of (final out)) = length (orders_of st)
    /\ patched !! "status" = reqBody !! "status"
    /\ patched !! "notes" = js_or (reqBody !! "notes") (old !! "notes")
    /\ patched !! "updatedAt" = iso_now (clk 0%nat)
    /\ (forall key, ~ In key patch_fields -> patched !! key = old !! key)
    /\ stores_file (final out) = stores_file st
    /\ products_file (final out) = products_file st.
Proof.
  intros Hfind Hold out. exists (patch_order clk reqBody old).
  destruct (patch_order_fields clk reqBody old) as (Hstatus & Hnotes & Hupdated & Hother).
  assert (Hi : alter (patch_order clk reqBody) i (orders_of st) !! i
               = Some (patch_order clk reqBody old)).
  { rewrite list_lookup_alter, Hold. by rewrite decide_True. }
  unfold out, update_order_status. fold (orders_of st). rewrite Hfind.
  cbn [response final]. rewrite Hi.
  split; [reflexivity|].
  unfold orders_of at 1 2 3. cbn [write_orders orders_file readJSON]. fold (orders_of st).
  split; [exact Hi|].
  split; [intros j Hj; by apply list_lookup_alter_ne|].
  split; [apply length_alter|].
  repeat split; assumption.
Qed.

Lemma update_order_status_known_witness :
  let st := Sample.orders_state Sample.three_orders in
  let out := update_order_status (H := Iso.builtins)
               (Sample.at_instant (Sample.new_year + 3 * Sample.one_hour))
               "MAIN-ORD-1704070800000" (object_literal [("notes", Some (JStr "call first"))])
               st in
  exists patched : Obj,
    orders_of (final out) !! 1%nat = Some patched
    /\ patched !! "status" = None
    /\ patched !! "notes" = Some (JStr "call first")
    /\ patched !! "storeName" = Some (JStr "Store s2").
Proof.
  intros st out.
  destruct (update_order_status_known (H := Iso.builtins)
              (Sample.at_instant (Sample.new_year + 3 * Sample.one_hour))
              "MAIN-ORD-1704070800000" (object_literal [("notes", Some (JStr "call first"))])
              st 1 (Sample.order_at "s2" (Sample.new_year + Sample.one_hour)))
    as (patched & _ & Hi & _ & _ & Hstatus & Hnotes & _ & Hother & _).
  - vm_compute. reflexivity.
  - reflexivity.
  - exists patched. split; [exact Hi|]. split; [exact Hstatus|]. split.
    + rewrite Hnotes. vm_compute. reflexivity.
    + rewrite Hother; [vm_compute; reflexivity|]. vm_compute. intuition discriminate.
Defined.

Lemma findIndex_app_last {A} (p : A -> bool) l y :
  (forall x, In x l -> p x = false) -> p y = true ->
  findIndex p (l ++ [y]) = Some (length l).
Proof.
  intros Hl Hy. induction l as [|x rest IH]; simpl.
  - by rewrite Hy.
  - rewrite (Hl x) by (by left). rewrite IH by (intros z Hz; apply Hl; by right).
    reflexivity.
Qed.

Lemma alter_app_last {A} (f : A -> A) l y :
  alter f (length l) (l ++ [y]) = l ++ [f y].
Proof. induction l as [|x rest IH]; simpl; [reflexivity|]. f_equal. exact IH. Qed.

(** X16.  An order can be updated under the [orderId] it was created with:
    when no earlier order has that [orderId], the update that follows the
    creation is answered 200 and changes the order just appended, which
    takes the status of the request and keeps its [orderId], its
    [createdAt] and the [storeName] it was given. *)
Theorem create_then_update_status `{Builtins} v clk net reqBody st store clk' patch :
  create_order_rejects reqBody = false ->
  find_store (reqBody !! "storeId") (stores_of st) = Some store ->
  let orderId := ("MAIN-ORD-" ++ pretty (clk 0%nat))%string in
  (forall o, In o (orders_of st) -> has_orderId orderId o = false) ->
  let created := final (create_order v clk net reqBody st) in
  let out := update_order_status clk' orderId patch created in
  code (response out) = 200%nat
  /\ exists patched : Obj,
       orders_of (final out) = orders_of st ++ [patched]
       /\ patched !! "status" = patch !! "status"
       /\ patched !! "orderId" = Some (JStr orderId)
       /\ patched !! "createdAt" = iso_now (clk 1%nat)
       /\ patched !! "storeName" = store !! "name".
Proof.
  intros Hguard Hfind orderId Hfresh created out.
  set (order := set_field "storeName" (store !! "name") (order_stamp clk reqBody)).
  assert (Hcreated : orders_of created = orders_of st ++ [order])
    by apply (create_order_known_store v clk net reqBody st store Hguard Hfind).
  destruct (order_stamp_fields clk reqBody) as (Hid & Hat & _ & _).
  assert (Horder : has_orderId orderId order = true).
  { unfold has_orderId, order. rewrite set_field_other by discriminate.
    rewrite Hid. simpl. apply String.eqb_refl. }
  destruct (patch_order_fields clk' patch order) as (Hstatus & _ & _ & Hother).
  unfold out, update_order_status. fold (orders_of created). rewrite Hcreated.
  rewrite (findIndex_app_last _ _ _ Hfresh Horder), alter_app_last.
  split; [reflexivity|].
  exists (patch_order clk' patch order).
  split; [reflexivity|]. split; [exact Hstatus|].
  rewrite !Hother by (simpl; intuition discriminate).
  unfold order. rewrite set_field_same, !set_field_other by discriminate.
  repeat split; assumption.
Qed.

Lemma create_then_update_status_witness :
  let st := Sample.with_stores Sample.two_stores in
  let created := final (create_order (H := Iso.builtins) Part000
                          (Sample.at_instant Sample.new_year) Sample.net_down
                          (Sample.order_request "s1") st) in
  let out := update_order_status (H := Iso.builtins)
               (Sample.at_instant (Sample.new_year + Sample.one_hour))
               "MAIN-ORD-1704067200000" (object_literal [("status", Some (JStr "shipped"))])
               created in
  code (response out) = 200%nat
  /\ exists patched : Obj,
       orders_of (final out) = [patched] /\ patched !! "status" = Some (JStr "shipped").
Proof.
  intros st created out.
  destruct (create_then_update_status (H := Iso.builtins) Part000
              (Sample.at_instant Sample.new_year) Sample.net_down
              (Sample.order_request "s1") st
              (Sample.store_seen "s1" Sample.new_year "online")
              (Sample.at_instant (Sample.new_year + Sample.one_hour))
              (object_literal [("status", Some (JStr "shipped"))]))
    as (Hcode & patched & Horders & Hstatus & _).
  - vm_compute. reflexivity.
  - vm_compute. reflexivity.
  - intros o [].
  - split; [exact Hcode|]. exists patched. split; [exact Horders|].
    rewrite Hstatus. vm_compute. reflexivity.
Defined.

(** X17.  The listing of the orders in [part_000] and [part_001], when the
    [createdAt] of every stored order is a date.  The response holds
    exactly the orders that match the [storeId] and the [status] of the
    query, each as often as it is stored; they come newest first, and
    orders of the same instant in their stored order.  A parameter that is
    empty filters nothing, nor does the status "all".  Nothing is written
    and nothing is sent. *)
Theorem list_orders_newest_first `{Builtins} v storeId status st :
  v <> MainServer ->
  Forall createdAt_valid (orders_of st) ->
  exists result,
    list_orders v storeId status st = mkOutcome (res_json (JArr (map JObj result))) st []
    /\ Permutation result (List.filter (order_selected storeId status) (orders_of st))
    /\ StronglySorted (fun a b => (createdAt b <= createdAt a)%Z) result
    /\ (forall t, List.filter (fun o => (createdAt o =? t)%Z) result
                  = List.filter (fun o => (createdAt o =? t)%Z)
                      (List.filter (order_selected storeId status) (orders_of st)))
    /\ (forall o, order_selected (Some "") (Some "all") o = true)
    /\ (forall o, order_selected None (Some "") o = true).
Proof.
  intros Hv Hvalid.
  destruct (list_orders_filtered_sorted v storeId status st Hv Hvalid)
    as (result & Hout & Hperm & Hsorted & Hstable).
  exists result. repeat split; assumption.
Qed.

Lemma list_orders_newest_first_witness :
  exists result,
    list_orders (H := Iso.builtins) Part001 (Some "s1") (Some "all")
      (Sample.orders_state Sample.three_orders)
    = mkOutcome (res_json (JArr (map JObj result)))
        (Sample.orders_state Sample.three_orders) []
    /\ length result = 2%nat.
Proof.
  destruct (list_orders_newest_first (H := Iso.builtins) Part001 (Some "s1") (Some "all")
              (Sample.orders_state Sample.three_orders))
    as (result & Hout & Hperm & _).
  - discriminate.
  - repeat constructor; vm_compute; eexists; reflexivity.
  - exists result. split; [exact Hout|].
    rewrite (Permutation_length Hperm). vm_compute. reflexivity.
Defined.

(** ** Further properties of the product listing *)

(** The two successive filters of the handler select the products of
    [product_selected]. *)
Lemma list_products_selection (storeId category : option string) (products : list Obj) :
  (if truthy (JStr <$> category) && negb (strict_eq (JStr <$> category) (Some (JStr "all")))
   then List.filter (fun p => strict_eq (p !! "category") (JStr <$> category))
          (if truthy (JStr <$> storeId)
           then List.filter (has_storeId (JStr <$> storeId)) products
           else products)
   else if truthy (JStr <$> storeId)
        then List.filter (has_storeId (JStr <$> storeId)) products
        else products)
  = List.filter (product_selected storeId category) products.
Proof.
  unfold product_selected, status_filter, filter_value.
  destruct storeId as [id|]; [destruct (String.eqb id "") eqn:Hid|];
    (destruct category as [wanted|];
     [destruct (String.eqb wanted "") eqn:Hw; [|destruct (String.eqb wanted "all") eqn:Ha]|]);
    cbn [fmap option_fmap option_map truthy strict_eq negb andb];
    rewrite ?Hid, ?Hw, ?Ha; cbn [negb andb];
    rewrite ?filter_filter_andb;
    first [ symmetry; apply filter_true
          | apply List.filter_ext; intros o; rewrite ?andb_true_r; reflexivity ].
Qed.

Lemma filter_value_Some (q : option string) term :
  filter_value q = Some term -> q = Some term /\ truthy (Some (JStr term)) = true.
Proof.
  unfold filter_value. destruct q as [s|]; [|discriminate].
  destruct (String.eqb s "") eqn:Hs; [discriminate|].
  intros [= <-]. split; [reflexivity|]. simpl. by rewrite Hs.
Qed.

Lemma filter_value_None (q : option string) :
  filter_value q = None -> truthy (JStr <$> q) = false.
Proof.
  unfold filter_value. destruct q as [s|]; [|reflexivity].
  destruct (String.eqb s "") eqn:Hs; [|discriminate]. intros _. simpl. by rewrite Hs.
Qed.

(** X18.  The listing of the products without a search.  [part_001]
    answers with the stored products that match the [storeId] and the
    [category] of the query exactly, in their stored order, an empty
    parameter and the category "all" filtering nothing; [main-server.js]
    and [part_000] answer with the whole catalog whatever the query.
    Nothing is written. *)
Theorem list_products_filters `{StringOps} storeId category search st :
  filter_value search = None ->
  list_products Part001 storeId category search st
  = mkOutcome
      (res_json (JArr (map JObj (List.filter (product_selected storeId category)
                                   (products_of st)))))
      st []
  /\ (forall v' search',
        v' <> Part001 ->
        list_products v' storeId category search' st
        = mkOutcome (res_json (JArr (map JObj (products_of st)))) st [])
  /\ (forall p, product_selected (Some "") (Some "all") p = true).
Proof.
  intros Hsearch. split; [|split].
  - unfold list_products. fold (products_of st). cbv zeta.
    rewrite (list_products_selection storeId category (products_of st)).
    destruct search as [term|]; [|reflexivity].
    apply filter_value_None in Hsearch. simpl in Hsearch. simpl. by rewrite Hsearch.
  - intros v' search' Hv'. unfold list_products. destruct v'; [reflexivity|reflexivity|congruence].
  - reflexivity.
Qed.

Lemma list_products_filters_witness :
  let st := Sample.products_state
              [Sample.product "s1" "bread"; Sample.shirt; Sample.product "s2" "milk"] in
  @list_products AsciiOps.string_ops Part001
    (Some "s1") (Some "grocery") (Some "") st
  = mkOutcome (res_json (JArr [JObj (Sample.product "s1" "bread")])) st [].
Proof.
  intros st.
  destruct (list_products_filters (H := AsciiOps.string_ops)
              (Some "s1") (Some "grocery") (Some "") st) as (Hout & _).
  - reflexivity.
  - rewrite Hout. reflexivity.
Defined.

Lemma search_matches_searchable `{StringOps} term p :
  searchable p ->
  search_matches (toLowerCase term) p = Some (name_or_category_holds term p).
Proof.
  intros [[name Hname] [category Hcategory]].
  unfold search_matches, name_or_category_holds. rewrite Hname, Hcategory.
  by destruct (includes (toLowerCase term) (toLowerCase name)).
Qed.

Lemma filter_throwing_total {A} (f : A -> option bool) (g : A -> bool) xs :
  (forall x, In x xs -> f x = Some (g x)) ->
  filter_throwing f xs = Some (List.filter g xs).
Proof.
  induction xs as [|x rest IH]; intros Hfg; simpl; [reflexivity|].
  rewrite (Hfg x) by (by left). rewrite IH by (intros y Hy; apply Hfg; by right).
  reflexivity.
Qed.

Lemma filter_throwing_None {A} (f : A -> option bool) xs :
  filter_throwing f xs = None <-> Exists (fun x => f x = None) xs.
Proof.
  induction xs as [|x rest IH]; simpl.
  - split; [discriminate|]. intros Hex. inversion Hex.
  - destruct (f x) as [b|] eqn:Hx.
    + destruct (filter_throwing f rest) as [kept|].
      * split; [discriminate|]. intros Hex. inversion Hex as [? ? Hhere|? ? Hthere]; subst.
        -- congruence.
        -- apply IH in Hthere. discriminate.
      * split; [|reflexivity]. intros _. apply Exists_cons_tl. by apply IH.
    + split; [|reflexivity]. intros _. by apply Exists_cons_hd.
Qed.

Lemma search_matches_None `{StringOps} term p :
  search_matches (toLowerCase term) p = None <-> search_throws term p.
Proof.
  unfold search_matches, search_throws. split.
  - destruct (p !! "name") as [[| | |name| |]|] eqn:Hname;
      try (intros _; left; intros n; discriminate).
    destruct (includes (toLowerCase term) (toLowerCase name)) eqn:Hin; [discriminate|].
    intros Hcat. right. exists name. split; [reflexivity|]. split; [exact Hin|].
    intros category Hc. rewrite Hc in Hcat. discriminate.
  - intros [Hnone | (name & Hname & Hin & Hcat)].
    + destruct (p !! "name") as [[| | |name| |]|]; try reflexivity.
      by destruct (Hnone name).
    + rewrite Hname, Hin.
      destruct (p !! "category") as [[| | |category| |]|]; try reflexivity.
      by destruct (Hcat category).
Qed.

(** X19.  The search of [part_001] is a search in the names and the
    categories that ignores the case: when the name and the category of
    every selected product are strings, the response holds the selected
    products whose name or category, in lower case, holds the term in lower
    case, in their stored order, and nothing is written. *)
Theorem list_products_search `{StringOps} storeId category search term st :
  filter_value search = Some term ->
  Forall searchable (List.filter (product_selected storeId category) (products_of st)) ->
  list_products Part001 storeId category search st
  = mkOutcome
      (res_json (JArr (map JObj
         (List.filter (name_or_category_holds term)
            (List.filter (product_selected storeId category) (products_of st))))))
      st [].
Proof.
  intros Hsearch Hsearchable.
  apply filter_value_Some in Hsearch as [-> Htruthy].
  unfold list_products. fold (products_of st). cbv zeta.
  rewrite (list_products_selection storeId category (products_of st)), Htruthy.
  rewrite (filter_throwing_total _ (name_or_category_holds term)); [reflexivity|].
  intros p Hp. apply search_matches_searchable.
  revert p Hp. by apply List.Forall_forall.
Qed.

Lemma list_products_search_witness :
  let st := Sample.products_state [Sample.product "s1" "bread"; Sample.shirt] in
  @list_products AsciiOps.string_ops Part001
    None None (Some "shirt") st
  = mkOutcome (res_json (JArr [JObj Sample.shirt])) st [].
Proof.
  intros st.
  rewrite (list_products_search (H := AsciiOps.string_ops)
             None None (Some "shirt") "shirt" st).
  - vm_compute. reflexivity.
  - reflexivity.
  - repeat constructor; eexists; vm_compute; reflexivity.
Defined.

(** X20.  The search of [part_001] answers 500 exactly when its callback
    throws on a selected product: one whose name is not a string, or whose
    name does not hold the term and whose category is not a string.  The
    body is then "Failed to fetch products", and in every case the files
    are as they were. *)
Theorem list_products_search_throws `{StringOps} storeId category search term st :
  filter_value search = Some term ->
  let out := list_products Part001 storeId category search st in
  let selected := List.filter (product_selected storeId category) (products_of st) in
  final out = st
  /\ (Exists (search_throws term) selected ->
      response out = res_status 500 (error_body "Failed to fetch products"))
  /\ (code (response out) = 500%nat -> Exists (search_throws term) selected).
Proof.
  intros Hsearch out selected.
  apply filter_value_Some in Hsearch as [-> Htruthy].
  unfold out, list_products. fold (products_of st). cbv zeta.
  rewrite (list_products_selection storeId category (products_of st)), Htruthy.
  fold selected.
  destruct (filter_throwing (search_matches (toLowerCase term)) selected) as [kept|] eqn:Hf.
  - split; [reflexivity|]. split; [|discriminate].
    intros Hex. exfalso.
    assert (Hnone : filter_throwing (search_matches (toLowerCase term)) selected = None).
    { apply filter_throwing_None. eapply List.Exists_impl; [|exact Hex].
      intros p Hp. by apply search_matches_None. }
    congruence.
  - split; [reflexivity|]. split; [reflexivity|].
    intros _. apply filter_throwing_None in Hf.
    eapply List.Exists_impl; [|exact Hf]. intros p Hp. by apply search_matches_None.
Qed.

Lemma list_products_search_throws_witness :
  let st := Sample.products_state [Sample.shirt; Sample.nameless] in
  response (@list_products AsciiOps.string_ops Part001
              None None (Some "shirt") st)
  = res_status 500 (error_body "Failed to fetch products").
Proof.
  intros st.
  destruct (list_products_search_throws (H := AsciiOps.string_ops)
              None None (Some "shirt") "shirt" st) as (_ & Hthrows & _).
  - reflexivity.
  - apply Hthrows. apply Exists_cons_tl, Exists_cons_hd. left.
    intros name. vm_compute. discriminate.
Defined.

(** *** The categories *)

Lemma Set_add_In seen x c :
  In c (Set_add seen x) -> In c seen \/ c = x.
Proof.
  unfold Set_add. destruct (existsb _ seen); [by left|].
  intros Hc. apply in_app_or in Hc as [Hc|[<-|[]]]; [by left|by right].
Qed.

Lemma Set_add_keeps seen x c : In c seen -> In c (Set_add seen x).
Proof.
  unfold Set_add. destruct (existsb _ seen); [done|]. intros Hc. apply in_or_app. by left.
Qed.

Lemma Set_add_has seen x :
  exists c, In c (Set_add seen x) /\ (c = x \/ strict_eq (Some c) (Some x) = true).
Proof.
  unfold Set_add.
  destruct (existsb (fun y => strict_eq (Some y) (Some x)) seen) eqn:Hex.
  - apply existsb_exists in Hex as (c & Hc & Heq). exists c. split; [exact Hc|by right].
  - exists x. split; [apply in_or_app; right; by left|by left].
Qed.

Lemma Set_add_distinct seen x :
  pairwise_distinct seen -> pairwise_distinct (Set_add seen x).
Proof.
  intros Hseen. unfold Set_add.
  destruct (existsb (fun y => strict_eq (Some y) (Some x)) seen) eqn:Hex; [exact Hseen|].
  assert (Hnew : forall y, In y seen -> strict_eq (Some y) (Some x) = false).
  { intros y Hy. destruct (strict_eq (Some y) (Some x)) eqn:Hyx; [|reflexivity].
    assert (Htrue : existsb (fun y => strict_eq (Some y) (Some x)) seen = true)
      by (apply existsb_exists; eauto).
    congruence. }
  intros i j a b Hi Hj Hne.
  apply lookup_app_Some in Hi as [Hi|[Hilen Hi]];
    apply lookup_app_Some in Hj as [Hj|[Hjlen Hj]].
  - by apply (Hseen i j).
  - destruct (j - length seen)%nat; [|discriminate]. injection Hj as <-.
    apply Hnew. apply list_elem_of_In, list_elem_of_lookup. eauto.
  - destruct (i - length seen)%nat; [|discriminate]. injection Hi as <-.
    rewrite strict_eq_sym. apply Hnew. apply list_elem_of_In, list_elem_of_lookup. eauto.
  - destruct (i - length seen)%nat eqn:Hin; [|discriminate].
    destruct (j - length seen)%nat eqn:Hjn; [|discriminate]. lia.
Qed.

Lemma Set_fold_spec values seen :
  let result := fold_left Set_add values seen in
  (forall c, In c result -> In c seen \/ In c values)
  /\ (forall c, In c seen -> In c result)
  /\ (forall x, In x values ->
                exists c, In c result /\ (c = x \/ strict_eq (Some c) (Some x) = true))
  /\ (pairwise_distinct seen -> pairwise_distinct result).
Proof.
  revert seen. induction values as [|x rest IH]; intros seen; cbn [fold_left].
  - repeat split; auto. intros x [].
  - destruct (IH (Set_add seen x)) as (Hsound & Hkeeps & Hcomplete & Hdistinct).
    split; [|split; [|split]].
    + intros c Hc. apply Hsound in Hc as [Hc|Hc]; [|right; by right].
      apply Set_add_In in Hc as [Hc| ->]; [by left|right; by left].
    + intros c Hc. by apply Hkeeps, Set_add_keeps.
    + intros y [<-|Hy]; [|by apply Hcomplete].
      destruct (Set_add_has seen x) as (c & Hc & Hcx).
      exists c. split; [by apply Hkeeps|exact Hcx].
    + intros Hseen. by apply Hdistinct, Set_add_distinct.
Qed.

Lemma truthy_categories_In products c :
  In c (truthy_categories products)
  <-> exists p, In p products /\ p !! "category" = Some c /\ truthy (Some c) = true.
Proof.
  unfold truthy_categories. rewrite <- list_elem_of_In, list_elem_of_omap. split.
  - intros (p & Hp & Hc). exists p. split; [by apply list_elem_of_In|].
    destruct (truthy (p !! "category")) eqn:Ht; [|discriminate].
    rewrite Hc in Ht. by split.
  - intros (p & Hp & Hc & Ht). exists p. split; [by apply list_elem_of_In|].
    rewrite Hc, Ht. reflexivity.
Qed.

(** X21.  [GET /api/categories] answers with the categories of the
    catalog, each once: every value of the response is the truthy
    [category] of a stored product, no two values of the response are
    [===], and the truthy category of every product is in the response,
    itself or a value that is [===] to it.  Products without a category,
    or with an empty one, add nothing, and nothing is written. *)
Theorem list_categories_distinct st :
  let out := list_categories st in
  final out = st
  /\ sent out = []
  /\ exists categories,
       response out = res_json (JArr categories)
       /\ (forall c, In c categories ->
                     truthy (Some c) = true
                     /\ exists p, In p (products_of st) /\ p !! "category" = Some c)
       /\ pairwise_distinct categories
       /\ (forall p c, In p (products_of st) -> p !! "category" = Some c ->
                       truthy (Some c) = true ->
                       exists c', In c' categories
                                  /\ (c' = c \/ strict_eq (Some c') (Some c) = true)).
Proof.
  intros out. split; [reflexivity|]. split; [reflexivity|].
  exists (Set_values (truthy_categories (products_of st))).
  destruct (Set_fold_spec (truthy_categories (products_of st)) [])
    as (Hsound & _ & Hcomplete & Hdistinct).
  split; [reflexivity|]. split; [|split].
  - intros c Hc. apply Hsound in Hc as [[]|Hc].
    apply truthy_categories_In in Hc as (p & Hp & Hcat & Ht). eauto.
  - apply Hdistinct. intros i j a b Hi. by rewrite lookup_nil in Hi.
  - intros p c Hp Hcat Ht. apply Hcomplete. apply truthy_categories_In. eauto.
Qed.

(** ** Provisioning *)

(** X22.  [ensureDataDir] only creates what is missing.  After it, every
    file that was absent holds the empty array (unless the directory could
    not be made, and then nothing changes); a file that was there is left
    as it was, even when it does not hold JSON; what [readJSON] gives for
    each of the three files is what it gave before; and running it again
    changes nothing. *)
Theorem ensureDataDir_provisions mkdir_ok d :
  let files (x : Disk) := [disk_stores x; disk_orders x; disk_products x] in
  let d' := ensureDataDir mkdir_ok d in
  Forall2 (fun f f' => (f <> Absent -> f' = f)
                       /\ (f = Absent -> f' = if mkdir_ok then Holds [] else Absent)
                       /\ readJSON (parsed f') = readJSON (parsed f))
    (files d) (files d')
  /\ ensureDataDir mkdir_ok d' = d'
  /\ (mkdir_ok = false -> d' = d).
Proof.
  intros files d'. unfold d', ensureDataDir.
  destruct d as [s o p], mkdir_ok; simpl.
  - split; [|split; [|discriminate]].
    + repeat constructor; try (destruct s, o, p; simpl; congruence).
    + by destruct s, o, p.
  - split; [|split; reflexivity].
    repeat constructor; congruence.
Qed.

(** ** Further properties of registration and of the creation of orders *)

(** X23.  Registering a known store again merges the request into its
    record.  For every field that [register] does not assign itself, the
    stored record takes the value of the body when the body has the field
    and keeps its own otherwise.  Its [registeredAt] is the instant of the
    request in [main-server.js]; in [part_000] it is the [registeredAt] of
    the body, or the instant of the request when the body has none; in
    [part_001] it is the one of the body, or the stored one when the body
    has none. *)
Theorem register_again_merges `{Builtins} v clk net reqBody st i old :
  register_rejects v reqBody = false ->
  findIndex (has_storeId (reqBody !! "storeId")) (stores_of st) = Some i ->
  stores_of st !! i = Some old ->
  exists merged : Obj,
    stores_of (final (register v clk net reqBody st)) !! i = Some merged
    /\ (forall key, ~ In key (register_fields v) ->
                    merged !! key = match reqBody !! key with
                                    | Some x => Some x
                                    | None => old !! key
                                    end)
    /\ merged !! "registeredAt"
       = match v with
         | MainServer => iso_now (clk 1%nat)
         | Part000 => js_or (reqBody !! "registeredAt") (iso_now (clk 1%nat))
         | Part001 => match reqBody !! "registeredAt" with
                      | Some x => Some x
                      | None => old !! "registeredAt"
                      end
         end.
Proof.
  intros Hguard Hfind Hold.
  destruct (register_existing_merges v clk net reqBody st i old Hguard Hfind Hold)
    as (Hmerged & _ & _ & Hnew & Hkept).
  eexists. split; [exact Hmerged|]. split.
  - intros key Hkey. destruct (reqBody !! key) as [x|] eqn:Hx.
    + by apply Hnew.
    + by apply Hkept.
  - pose proof (register_stamp_registeredAt v clk reqBody) as Hstamp.
    destruct v.
    + by apply spread_new.
    + unfold js_or in *. destruct (truthy (reqBody !! "registeredAt")) eqn:Ht.
      * destruct (reqBody !! "registeredAt") as [x|] eqn:Hx; [|discriminate].
        by apply spread_new.
      * by apply spread_new.
    + destruct (reqBody !! "registeredAt") as [x|] eqn:Hx.
      * by apply spread_new.
      * by apply spread_old.
Qed.

Lemma register_again_merges_witness :
  let st := Sample.with_stores [Sample.store_with_phone "s1"] in
  exists merged : Obj,
    stores_of (final (register (H := Iso.builtins) Part001
                        (Sample.at_instant (Sample.new_year + Sample.one_hour))
                        Sample.net_down (Sample.registration "s1") st)) !! 0%nat
    = Some merged
    /\ merged !! "phone" = Some (JStr "555-0100").
Proof.
  intros st.
  destruct (register_again_merges (H := Iso.builtins) Part001
              (Sample.at_instant (Sample.new_year + Sample.one_hour))
              Sample.net_down (Sample.registration "s1") st 0
              (Sample.store_with_phone "s1")) as (merged & Hmerged & Hfields & _).
  - reflexivity.
  - vm_compute. reflexivity.
  - reflexivity.
  - exists merged. split; [exact Hmerged|].
    rewrite Hfields; [vm_compute; reflexivity|]. vm_compute. intuition discriminate.
Defined.

(** X24.  The three answers of [POST /api/orders].  The answer is 400 when
    [storeId], [items] or [customer] is missing or falsy (an empty array of
    items is not); it is 404 when the three are there and no store has the
    [storeId]; it is 201 otherwise.  Only a request answered 201 writes, and
    it writes the orders only. *)
Theorem create_order_answers `{Builtins} v clk net reqBody st :
  let out := create_order v clk net reqBody st in
  let missing :=
    negb (truthy (reqBody !! "storeId") && truthy (reqBody !! "items")
          && truthy (reqBody !! "customer")) in
  code (response out)
  = (if missing then 400
     else match find_store (reqBody !! "storeId") (stores_of st) with
          | None => 404
          | Some _ => 201
          end)%nat
  /\ (code (response out) <> 201%nat -> final out = st /\ sent out = [])
  /\ stores_file (final out) = stores_file st
  /\ products_file (final out) = products_file st
  /\ (forall items, truthy (Some (JArr items)) = true).
Proof.
  intros out missing. unfold out, create_order.
  assert (Hguard : create_order_rejects reqBody = missing).
  { unfold create_order_rejects, missing.
    destruct (truthy (reqBody !! "storeId")), (truthy (reqBody !! "items")),
      (truthy (reqBody !! "customer")); reflexivity. }
  rewrite Hguard. destruct missing.
  { split; [reflexivity|]. split; [intros _; split; reflexivity|repeat split]. }
  rewrite order_stamp_storeId. fold (stores_of st).
  destruct (find_store (reqBody !! "storeId") (stores_of st)).
  - split; [reflexivity|]. split; [|repeat split].
    intros Hcode. by destruct Hcode.
  - split; [reflexivity|]. split; [intros _; split; reflexivity|repeat split].
Qed.
